(** * Verification of the parsing and scoring core of aerchain-backend

    Shallow embedding of [services/aiService] (the regex fallback parsers,
    the generative-service envelopes, the fallback proposal comparison and
    the fallback email template) and of the [compareProposals] controller.

    Strings are modelled as ASCII text ([string] / [list ascii]); JavaScript
    numbers used in the scoring formulas are modelled as rationals [Q]. *)

From Stdlib Require Import Ascii String List Bool Arith ZArith Lia.
From Stdlib Require Import QArith Qround Qminmax Lqa.
From Stdlib Require Import Sorting.Permutation Sorting.Sorted.
From Stdlib Require Import Numbers.DecimalString.
Import ListNotations.

Open Scope list_scope.

(** ** Characters and text helpers *)
Module Text.
Local Open Scope nat_scope.

Definition code (c : ascii) : nat := nat_of_ascii c.

Definition is_digit (c : ascii) : bool := (48 <=? code c) && (code c <=? 57).

(** JavaScript [\s] restricted to ASCII: space, \t, \n, \v, \f, \r. *)
Definition is_space (c : ascii) : bool :=
  (code c =? 32) || ((9 <=? code c) && (code c <=? 13)).

(** [String.prototype.toLowerCase] / [toUpperCase] on one ASCII character. *)
Definition lower (c : ascii) : ascii :=
  if (65 <=? code c) && (code c <=? 90) then ascii_of_nat (code c + 32) else c.

Definition upper (c : ascii) : ascii :=
  if (97 <=? code c) && (code c <=? 122) then ascii_of_nat (code c - 32) else c.

Definition to_lower (s : list ascii) : list ascii := map lower s.

Definition s2l (s : string) : list ascii := list_ascii_of_string s.
Definition l2s (l : list ascii) : string := string_of_list_ascii l.

Fixpoint is_prefix (p s : list ascii) : bool :=
  match p, s with
  | [], _ => true
  | a :: p', b :: s' => Ascii.eqb a b && is_prefix p' s'
  | _ :: _, [] => false
  end.

(** [String.prototype.includes]. *)
Fixpoint includes (hay needle : list ascii) : bool :=
  is_prefix needle hay ||
  match hay with
  | [] => false
  | _ :: t => includes t needle
  end.

(** [parseInt] on the strings the code hands it: leading white space, an
    optional sign, then the longest run of decimal digits; [None] is NaN. *)
Fixpoint digits_value (acc : Z) (s : list ascii) : Z * nat :=
  match s with
  | c :: t =>
      if is_digit c
      then let '(v, n) := digits_value (acc * 10 + Z.of_nat (code c - 48))%Z t in (v, S n)
      else (acc, 0)
  | [] => (acc, 0)
  end.

Fixpoint drop_spaces (s : list ascii) : list ascii :=
  match s with
  | c :: t => if is_space c then drop_spaces t else s
  | [] => []
  end.

Definition parseInt (s : list ascii) : option Z :=
  let s := drop_spaces s in
  let '(sign, body) :=
    match s with
    | c :: t => if Ascii.eqb c "-" then ((-1)%Z, t)
                else if Ascii.eqb c "+" then (1%Z, t) else (1%Z, s)
    | [] => (1%Z, s)
    end in
  let '(v, n) := digits_value 0 body in
  if n =? 0 then None else Some (sign * v)%Z.

(** [`${n}`] for an integral JavaScript number. *)
Definition z_to_text (z : Z) : list ascii :=
  s2l (NilEmpty.string_of_int (Z.to_int z)).

End Text.

(** ** A backtracking matcher with the semantics of JavaScript regular
    expressions, for the constructs the service uses: character classes,
    concatenation, ordered alternation, greedy [*] over a class, greedy
    [?], capturing groups and the [$] anchor. *)
Module Regex.
Import Text.
Local Open Scope nat_scope.

(** Captures: group number and captured text, most recent first. *)
Definition caps := list (nat * list ascii).

Inductive re : Type :=
| REps
| RChar (p : ascii -> bool)
| RSeq (r1 r2 : re)
| RAlt (r1 r2 : re)
| RStar (p : ascii -> bool)
| ROpt (r : re)
| RGroup (n : nat) (r : re)
| REnd.

Fixpoint run_length (p : ascii -> bool) (s : list ascii) : nat :=
  match s with
  | c :: t => if p c then S (run_length p t) else 0
  | [] => 0
  end.

Definition result := option (list ascii * caps).

(** [mre r s c k]: match [r] at the front of [s], then run the
    continuation [k] on the rest; backtrack on failure of [k]. *)
Fixpoint mre (r : re) (s : list ascii) (c : caps)
         (k : list ascii -> caps -> result) {struct r} : result :=
  match r with
  | REps => k s c
  | RChar p =>
      match s with
      | x :: t => if p x then k t c else None
      | [] => None
      end
  | RSeq r1 r2 => mre r1 s c (fun s' c' => mre r2 s' c' k)
  | RAlt r1 r2 =>
      match mre r1 s c k with
      | Some v => Some v
      | None => mre r2 s c k
      end
  | RStar p =>
      (fix try (n : nat) : result :=
         match k (skipn n s) c with
         | Some v => Some v
         | None => match n with 0 => None | S n' => try n' end
         end) (run_length p s)
  | ROpt r1 =>
      match mre r1 s c k with
      | Some v => Some v
      | None => k s c
      end
  | RGroup n r1 =>
      mre r1 s c (fun s' c' => k s' ((n, firstn (length s - length s') s) :: c'))
  | REnd =>
      match s with
      | [] => k s c
      | _ :: _ => None
      end
  end.

(** Match anchored at the front of [s]: remaining text and captures. *)
Definition match_at (r : re) (s : list ascii) : result :=
  mre r s [] (fun s' c => Some (s', c)).

(** A match: the matched text ([match[0]]) and its captures. *)
Definition mtch := (list ascii * caps)%type.

Fixpoint group (c : caps) (n : nat) : option (list ascii) :=
  match c with
  | (m, t) :: c' => if m =? n then Some t else group c' n
  | [] => None
  end.

(** [String.prototype.match] with a non-global pattern: the leftmost match. *)
Fixpoint search (r : re) (s : list ascii) : option mtch :=
  match match_at r s with
  | Some (s', c) => Some (firstn (length s - length s') s, c)
  | None =>
      match s with
      | [] => None
      | _ :: t => search r t
      end
  end.

(** The [while ((m = pattern.exec(text)) !== null)] loop over a global
    pattern: each search starts at [lastIndex], the end of the previous
    match.  [skip] counts the positions still before [lastIndex]. (An empty
    match would make the JavaScript loop run forever; none of the patterns
    below can match the empty string.) *)
Fixpoint scan (r : re) (s : list ascii) (skip : nat) {struct s} : list mtch :=
  match skip, s with
  | S k, _ :: t => scan r t k
  | S _, [] => []
  | O, _ =>
      match match_at r s with
      | Some (s', c) =>
          let n := length s - length s' in
          (firstn n s, c) ::
          match s with
          | [] => []
          | _ :: t => scan r t (pred n)
          end
      | None =>
          match s with
          | [] => []
          | _ :: t => scan r t 0
          end
      end
  end.

Definition exec_all (r : re) (s : list ascii) : list mtch := scan r s 0.

(** [s.replace(/r/g, '')]. *)
Fixpoint replace_all (r : re) (s : list ascii) (skip : nat) {struct s} : list ascii :=
  match skip, s with
  | S k, _ :: t => replace_all r t k
  | S _, [] => []
  | O, [] => []
  | O, x :: t =>
      match match_at r s with
      | Some (s', _) =>
          let n := length s - length s' in
          if n =? 0 then x :: replace_all r t 0 else replace_all r t (pred n)
      | None => x :: replace_all r t 0
      end
  end.

(** [s.replace(/r/, '')]: the leftmost match only. *)
Fixpoint replace_first (r : re) (s : list ascii) : list ascii :=
  match match_at r s with
  | Some (s', _) => s'
  | None =>
      match s with
      | [] => []
      | x :: t => x :: replace_first r t
      end
  end.

(** Pattern building blocks; [ci] is a letter under the [i] flag. *)
Definition lit (a : ascii) : ascii -> bool := fun c => Ascii.eqb c a.
Definition ci (a : ascii) : ascii -> bool := fun c => Ascii.eqb (lower c) (lower a).

Fixpoint word_l (w : list ascii) : re :=
  match w with
  | [] => REps
  | [a] => RChar (ci a)
  | a :: t => RSeq (RChar (ci a)) (word_l t)
  end.

Definition word (w : string) : re := word_l (s2l w).

Definition plus (p : ascii -> bool) : re := RSeq (RChar p) (RStar p).

Fixpoint alts (rs : list re) : re :=
  match rs with
  | [] => REps
  | [r] => r
  | r :: rs' => RAlt r (alts rs')
  end.

(** [w] or [ws]: the [words?] of the patterns. *)
Definition opt_s (w : string) : re := RSeq (word w) (ROpt (RChar (ci "s"))).

Definition digit_or_comma (c : ascii) : bool := is_digit c || Ascii.eqb c ",".

End Regex.

(** ** [fallbackParseRFP]: the regex RFP extractor *)
Module Extract.
Import Text Regex.
Local Open Scope nat_scope.
Local Open Scope string_scope.

Record Item := mkItem {
  name : string;
  quantity : Z;
  specifications : string
}.

(** A JavaScript value that is [null], [NaN] or an integer. *)
Inductive jsnum := JNull | JNaN | JNum (z : Z).

Record Requirements := mkRequirements {
  paymentTerms : option string;
  warranty : option string;
  deliveryLocation : option string;
  additionalTerms : list string
}.

Record ExtractionResult := mkExtraction {
  title : string;
  description : string;
  budget : jsnum;
  currency : string;
  deliveryDays : option Z;
  items : list Item;
  requirements : Requirements
}.

(** [/\$[\d,]+|\d+[\d,]*\s*(dollars|usd)/i] *)
Definition budget_re : re :=
  RAlt (RSeq (RChar (lit "$")) (plus digit_or_comma))
       (RSeq (plus is_digit)
          (RSeq (RStar digit_or_comma)
             (RSeq (RStar is_space) (RGroup 1 (RAlt (word "dollars") (word "usd")))))).

(** [/[$,\s]|dollars|usd/gi] *)
Definition budget_strip_re : re :=
  RAlt (RChar (fun c => Ascii.eqb c "$" || Ascii.eqb c "," || is_space c))
       (RAlt (word "dollars") (word "usd")).

(** [/(\d+)\s*(days?|weeks?)/i] *)
Definition delivery_re : re :=
  RSeq (RGroup 1 (plus is_digit))
       (RSeq (RStar is_space) (RGroup 2 (RAlt (opt_s "day") (opt_s "week")))).

(** [/(\d+)\s*(w1|w2|...)/gi] *)
Definition item_re (ws : list re) : re :=
  RSeq (RGroup 1 (plus is_digit)) (RSeq (RStar is_space) (RGroup 2 (alts ws))).

Definition itemPatterns : list re :=
  [ item_re [opt_s "laptop"; opt_s "computer"; opt_s "pc"; opt_s "machine"];
    item_re [opt_s "monitor"; opt_s "display"; opt_s "screen"];
    item_re [opt_s "keyboard"; word "mice"; word "mouse"];
    item_re [opt_s "chair"; opt_s "desk"; opt_s "table"];
    item_re [opt_s "phone"; opt_s "mobile"; opt_s "handset"];
    item_re [opt_s "printer"; opt_s "scanner"];
    item_re [opt_s "server"; opt_s "router"; opt_s "switche"] ].

(** [/(\d+)\s*GB\s*RAM/i] *)
Definition ram_re : re :=
  RSeq (RGroup 1 (plus is_digit))
       (RSeq (RStar is_space) (RSeq (word "gb") (RSeq (RStar is_space) (word "ram")))).

(** [/(\d+)[- ]?(inch|Q)/i] where Q is the double-quote character
    (character 34). *)
Definition screen_re : re :=
  RSeq (RGroup 1 (plus is_digit))
       (RSeq (ROpt (RChar (fun c => Ascii.eqb c "-" || Ascii.eqb c " ")))
             (RGroup 2 (RAlt (word "inch") (RChar (lit "034"%char))))).

(** [/(\d+)\s*(year|month)s?\s*warranty/i] *)
Definition warranty_re : re :=
  RSeq (RGroup 1 (plus is_digit))
       (RSeq (RStar is_space)
          (RSeq (RGroup 2 (RAlt (word "year") (word "month")))
             (RSeq (ROpt (RChar (ci "s"))) (RSeq (RStar is_space) (word "warranty"))))).

(** [/s$/] *)
Definition s_end_re : re := RSeq (RChar (lit "s")) REnd.

Definition cap (m : mtch) (n : nat) : list ascii :=
  match group (snd m) n with Some t => t | None => [] end.

(** [w.charAt(0).toUpperCase() + w.slice(1)] with [w = match[2].replace(/s$/, '')]. *)
Definition item_name (m2 : list ascii) : list ascii :=
  match replace_first s_end_re m2 with
  | [] => []
  | c :: t => upper c :: t
  end.

Definition item_of_match (m : mtch) : Item :=
  mkItem (l2s (item_name (cap m 2)))
         (match parseInt (cap m 1) with Some q => q | None => 0%Z end)
         "".

(** [itemPatterns.forEach(pattern => { while (exec) items.push(...) })] *)
Definition extract_items (userInput : list ascii) : list Item :=
  flat_map (fun pat => map item_of_match (exec_all pat userInput)) itemPatterns.

Definition set_spec (it : Item) (sp : string) : Item :=
  mkItem (name it) (quantity it) sp.

(** [items[i].specifications = sp] (no effect past the end). *)
Fixpoint set_spec_at (i : nat) (sp : string) (l : list Item) : list Item :=
  match l, i with
  | [], _ => []
  | it :: t, 0 => set_spec it sp :: t
  | it :: t, S j => it :: set_spec_at j sp t
  end.

(** [items.findIndex(i => i.name.toLowerCase().includes('monitor'))];
    [items.find] returns the object at that index, which the code mutates. *)
Fixpoint find_monitor (l : list Item) : option nat :=
  match l with
  | [] => None
  | it :: t =>
      if includes (to_lower (s2l (name it))) (s2l "monitor") then Some 0
      else option_map S (find_monitor t)
  end.

(** RAM step: [if (ramMatch && items.length > 0) items[0].specifications = ...]. *)
Definition apply_ram (userInput : list ascii) (items : list Item) : list Item :=
  match search ram_re userInput, items with
  | Some m, _ :: _ => set_spec_at 0 (l2s (cap m 1 ++ s2l "GB RAM")) items
  | _, _ => items
  end.

(** Screen step: the first item whose name contains "monitor". *)
Definition apply_screen (userInput : list ascii) (items : list Item) : list Item :=
  match search screen_re userInput with
  | Some m =>
      match find_monitor items with
      | Some i => set_spec_at i (l2s (cap m 1 ++ s2l " inch")) items
      | None => items
      end
  | None => items
  end.

Definition budget_of (userInput : list ascii) : jsnum :=
  match search budget_re userInput with
  | Some m =>
      match parseInt (replace_all budget_strip_re (fst m) 0) with
      | Some z => JNum z
      | None => JNaN
      end
  | None => JNull
  end.

Definition delivery_of (input : list ascii) : option Z :=
  match search delivery_re input with
  | Some m =>
      let d := match parseInt (cap m 1) with Some z => z | None => 0%Z end in
      Some (if includes (cap m 2) (s2l "week") then (d * 7)%Z else d)
  | None => None
  end.

Definition payment_of (input : list ascii) : option string :=
  if includes input (s2l "net 30") then Some "Net 30"
  else if includes input (s2l "net 60") then Some "Net 60"
  else if includes input (s2l "net 15") then Some "Net 15"
  else if includes input (s2l "immediate") || includes input (s2l "advance")
  then Some "Advance Payment"
  else None.

Definition warranty_of (input : list ascii) : option string :=
  match search warranty_re input with
  | Some m =>
      let plural := match parseInt (cap m 1) with
                    | Some z => (1 <? z)%Z | None => false end in
      Some (l2s (cap m 1 ++ s2l " " ++ cap m 2 ++ (if plural then s2l "s" else [])
                 ++ s2l " warranty"))
  | None => None
  end.

Fixpoint join (sep : string) (l : list string) : string :=
  match l with
  | [] => ""
  | [x] => x
  | x :: t => x ++ sep ++ join sep t
  end.

Definition placeholder (userInput : list ascii) : Item :=
  mkItem "Items as specified" 1 (l2s (firstn 100 userInput)).

Definition fallbackParseRFP (userInput_s : string) : ExtractionResult :=
  let userInput := s2l userInput_s in
  let input := to_lower userInput in
  let budget := budget_of userInput in
  let deliveryDays := delivery_of input in
  let items := apply_screen userInput (apply_ram userInput (extract_items userInput)) in
  let paymentTerms := payment_of input in
  let warranty := warranty_of input in
  let itemNames := join " and " (map name items) in
  let title := match items with
               | _ :: _ => (itemNames ++ " Procurement")%string
               | [] => "Procurement Request"
               end in
  mkExtraction title (l2s (firstn 200 userInput)) budget "USD" deliveryDays
    (match items with _ :: _ => items | [] => [placeholder userInput] end)
    (mkRequirements paymentTerms warranty None []).

Definition scenario : string :=
  "We need 5 laptops with 16GB RAM and 2 monitors 24 inch, budget $10000, delivery in 2 weeks, Net 30 payment, 2 year warranty".

End Extract.

(** ** [fallbackParseProposal]: the regex proposal extractor *)
Module ProposalExtract.
Import Text Regex Extract.
Local Open Scope nat_scope.
Local Open Scope string_scope.

(** A JavaScript number that may be [null] or [NaN]. *)
Inductive qnum := QNull | QNaN | QNum (q : Q).

(** [parseFloat] on the digit strings [\$[\d,]+\.?\d*] leaves once [$] and
    commas are removed: integer digits, an optional point, fraction digits;
    NaN when there is no digit at all. *)
Definition parseFloat (s : list ascii) : qnum :=
  let '(iv, ni) := digits_value 0 s in
  let rest := skipn ni s in
  let '(fv, nf) :=
    match rest with
    | c :: t => if Ascii.eqb c "." then digits_value 0 t else (0%Z, 0)
    | [] => (0%Z, 0)
    end in
  if Nat.eqb (ni + nf) 0 then QNaN
  else QNum (inject_Z iv + inject_Z fv / inject_Z (10 ^ Z.of_nat nf))%Q.

(** [Math.max(...xs)] for a non-empty list: NaN as soon as one is NaN. *)
Fixpoint js_max (acc : qnum) (xs : list qnum) : qnum :=
  match xs with
  | [] => acc
  | x :: t =>
      js_max (match acc, x with
              | QNum a, QNum b => QNum (Qmax a b)
              | _, _ => QNaN
              end) t
  end.

Record ProposalExtraction := mkProposalExtraction {
  totalPrice : qnum;
  itemPricing : list string;
  deliveryTimeline : option string;
  p_deliveryDays : option Z;
  p_paymentTerms : option string;
  p_warranty : option string;
  validityPeriod : option string;
  conditions : list string;
  notes : option string
}.

(** [/\$[\d,]+\.?\d*/g] *)
Definition price_re : re :=
  RSeq (RChar (lit "$"))
       (RSeq (plus digit_or_comma) (RSeq (ROpt (RChar (lit "."))) (RStar is_digit))).

(** [/[$,]/g] *)
Definition price_strip_re : re := RChar (fun c => Ascii.eqb c "$" || Ascii.eqb c ",").

(** [/(\d+)\s*(days?|weeks?|business days?)/i] *)
Definition p_delivery_re : re :=
  RSeq (RGroup 1 (plus is_digit))
       (RSeq (RStar is_space)
          (RGroup 2 (alts [opt_s "day"; opt_s "week";
                           RSeq (word "business ") (opt_s "day")]))).

Definition fallbackParseProposal (emailBody_s : string) : ProposalExtraction :=
  let emailBody := s2l emailBody_s in
  let text := to_lower emailBody in
  let prices := map (fun m => parseFloat (replace_all price_strip_re (fst m) 0))
                    (exec_all price_re emailBody) in
  let totalPrice := match prices with
                    | [] => QNull
                    | p :: ps => js_max p ps
                    end in
  let deliveryDays :=
    match search p_delivery_re text with
    | Some m =>
        let d := match parseInt (cap m 1) with Some z => z | None => 0%Z end in
        Some (if includes (cap m 2) (s2l "week") then (d * 7)%Z else d)
    | None => None
    end in
  let paymentTerms :=
    if includes text (s2l "net 30") then Some "Net 30"
    else if includes text (s2l "net 60") then Some "Net 60"
    else if includes text (s2l "net 15") then Some "Net 15"
    else None in
  mkProposalExtraction totalPrice [] 
    (match deliveryDays with
     | Some d => if (d =? 0)%Z then None else Some (l2s (z_to_text d ++ s2l " days"))
     | None => None
     end)
    deliveryDays paymentTerms (warranty_of text) None [] (Some "Parsed using fallback parser").

End ProposalExtract.

(** ** The generative-service adapter and its envelopes *)
Module Service.
Import Text Extract ProposalExtract.
Local Open Scope string_scope.

(** The scalar values a JSON request body can hand the parsers.  JSON
    objects and arrays are not modelled; statements about request values
    range over these scalars only. *)
Inductive jsval :=
| JSString (s : string)
| JSNumber (z : Z)
| JSBool (b : bool)
| JSNull
| JSUndefined.

(** A parsed JSON document. *)
#[local] Set Warnings "-register-all".
Inductive json :=
| JNullV
| JBoolV (b : bool)
| JNumV (z : Z)
| JStrV (s : string)
| JArrV (l : list json)
| JObjV (fields : list (string * json)).

(** [JSON.parse(response.choices[0].message.content)]. *)
Inductive parsed := JsonOk (j : json) | JsonError (msg : string).

(** The one call to the completion endpoint: it throws, or returns content. *)
Inductive reply := ReplyThrows (msg : string) | ReplyContent (p : parsed).

(** [openai] is [null] when no key was configured. *)
Inductive service := Unconfigured | Configured (r : reply).

Inductive exn := TypeError (msg : string).

Inductive outcome (A : Type) := Returned (a : A) | Threw (e : exn).
Arguments Returned {A} a.
Arguments Threw {A} e.

(** [{success: true, data, usedFallback?}] or [{success: false, error}];
    [usedFallback = false] stands for the field being absent. *)
Inductive envelope (D : Type) :=
| EnvData (data : D) (usedFallback : bool)
| EnvFail (error : string).
Arguments EnvData {D} data usedFallback.
Arguments EnvFail {D} error.

Definition success {D} (e : envelope D) : bool :=
  match e with EnvData _ _ => true | EnvFail _ => false end.

(** [userInput.toLowerCase()] throws on anything but a string. *)
Definition fallbackParseRFP_js (v : jsval) : outcome ExtractionResult :=
  match v with
  | JSString s => Returned (fallbackParseRFP s)
  | _ => Threw (TypeError "userInput.toLowerCase is not a function")
  end.

Definition fallbackParseProposal_js (v : jsval) : outcome ProposalExtraction :=
  match v with
  | JSString s => Returned (fallbackParseProposal s)
  | _ => Threw (TypeError "emailBody.toLowerCase is not a function")
  end.

Definition message (r : reply) : option string :=
  match r with
  | ReplyThrows msg => Some msg
  | ReplyContent (JsonError msg) => Some msg
  | ReplyContent (JsonOk _) => None
  end.

(** [parseRFPFromNaturalLanguage]: the number of network attempts and what
    the call does (returns an envelope or lets an exception escape). *)
Definition parseRFPFromNaturalLanguage (svc : service) (userInput : jsval)
  : nat * outcome (envelope (json + ExtractionResult)) :=
  match svc with
  | Unconfigured =>
      (0%nat, match fallbackParseRFP_js userInput with
          | Returned d => Returned (EnvData (inr d) true)
          | Threw e => Threw e
          end)
  | Configured r =>
      (1%nat, match r with
          | ReplyContent (JsonOk j) => Returned (EnvData (inl j) false)
          | _ =>
              let msg := match message r with Some m => m | None => "" end in
              match fallbackParseRFP_js userInput with
              | Returned d => Returned (EnvData (inr d) true)
              | Threw _ => Returned (EnvFail msg)
              end
          end)
  end.

(** [parseVendorProposal]: the fallback after a failed call is not guarded. *)
Definition parseVendorProposal (svc : service) (emailBody : jsval)
  : nat * outcome (envelope (json + ProposalExtraction)) :=
  match svc with
  | Unconfigured =>
      (0%nat, match fallbackParseProposal_js emailBody with
          | Returned d => Returned (EnvData (inr d) true)
          | Threw e => Threw e
          end)
  | Configured r =>
      (1%nat, match r with
          | ReplyContent (JsonOk j) => Returned (EnvData (inl j) false)
          | _ =>
              match fallbackParseProposal_js emailBody with
              | Returned d => Returned (EnvData (inr d) true)
              | Threw e => Threw e
              end
          end)
  end.

End Service.

(** ** [fallbackCompareProposals]: deterministic proposal scoring *)
Module Compare.
Import Text.
Local Open Scope Q_scope.
Local Open Scope string_scope.

(** The populated [vendorId] document. *)
Record Vendor := mkVendor { v_id : nat; v_name : string }.

(** [parsedData] of a proposal; [None] stands for every falsy non-number
    the fields can hold (absent, [null], [NaN]). *)
Record ParsedData := mkParsedData {
  pd_totalPrice : option Q;
  pd_deliveryDays : option Q;
  pd_warranty : option string
}.

(** A proposal as the comparison receives it; [vendorId] is [null] when the
    referenced vendor no longer exists. *)
Record Proposal := mkProposal {
  vendorId : option Vendor;
  parsedData : ParsedData
}.

(** The numeric and list fields of a [VendorScore]; the free-text [pros]
    and [summary] are not modelled. *)
Record VendorScore := mkVendorScore {
  vs_vendorId : option nat;
  vs_vendorName : string;
  priceScore : Z;
  deliveryScore : Z;
  termsScore : Z;
  overallScore : Z;
  cons : list string
}.

(** JavaScript truthiness of a number field, and [x || d]. *)
Definition truthy (o : option Q) : option Q :=
  match o with
  | Some q => if Qeq_bool q 0 then None else Some q
  | None => None
  end.

Definition or_num (o : option Q) (d : Q) : Q :=
  match truthy o with Some q => q | None => d end.

Definition truthy_str (o : option string) : bool :=
  match o with Some s => negb (String.eqb s "") | None => false end.

(** [a < b] on numbers. *)
Definition qlt (a b : Q) : bool := negb (Qle_bool b a).

(** [Math.round]: round half up. *)
Definition js_round (x : Q) : Z := Qfloor (x + (1 # 2)).

(** [Math.max(0, Math.min(100, s))]. *)
Definition clamp (z : Z) : Z := Z.max 0 (Z.min 100 z).

Definition price_or_zero (pr : Proposal) : Q := or_num (pd_totalPrice (parsedData pr)) 0.

(** [Math.max(...proposals.map(pr => pr.parsedData?.totalPrice || 0)) || 1];
    [None] is [-Infinity], the maximum of no value. *)
Definition maxPrice (proposals : list Proposal) : option Q :=
  match map price_or_zero proposals with
  | [] => None
  | x :: xs => let m := fold_left Qmax xs x in
               Some (if Qeq_bool m 0 then 1 else m)
  end.

Definition truthy_prices (proposals : list Proposal) : list Q :=
  flat_map (fun pr => match truthy (pd_totalPrice (parsedData pr)) with
                      | Some q => [q] | None => [] end) proposals.

(** [Math.min(...proposals.filter(totalPrice).map(totalPrice)) || 0];
    [None] is [Infinity], the minimum of no value. *)
Definition minPrice (proposals : list Proposal) : option Q :=
  match truthy_prices proposals with
  | [] => None
  | x :: xs => let m := fold_left Qmin xs x in
               Some (if Qeq_bool m 0 then 0 else m)
  end.

(** The unclamped [priceScore].  The bounds are finite whenever
    [price > 0], since [p] is one of [proposals]; the last branch (where
    JavaScript would compute NaN) is not reached by the callback. *)
Definition rawPriceScore (proposals : list Proposal) (p : Proposal) : Z :=
  let price := price_or_zero p in
  if qlt 0 price then
    match minPrice proposals, maxPrice proposals with
    | Some mn, Some mx =>
        let span := mx - mn in
        js_round (100 - ((price - mn) / (if Qeq_bool span 0 then 1 else span)) * 50)
    | _, _ => 0%Z
    end
  else 50%Z.

Definition delivery_of (p : Proposal) : Q := or_num (pd_deliveryDays (parsedData p)) 999.

(** The unclamped [deliveryScore]. *)
Definition rawDeliveryScore (p : Proposal) : Z :=
  let delivery := delivery_of p in
  if qlt delivery 999 then js_round (100 - (delivery / 60) * 50) else 50%Z.

Definition rawTermsScore (p : Proposal) : Z :=
  if truthy_str (pd_warranty (parsedData p)) then 80%Z else 60%Z.

Definition vendorName_of (p : Proposal) : string :=
  match vendorId p with
  | Some v => if String.eqb (v_name v) "" then "Unknown Vendor" else v_name v
  | None => "Unknown Vendor"
  end.

(** The [proposals.map(p => ...)] callback. *)
Definition score (proposals : list Proposal) (p : Proposal) : VendorScore :=
  let ps := rawPriceScore proposals p in
  let ds := rawDeliveryScore p in
  let ts := rawTermsScore p in
  let overall := js_round (inject_Z (ps + ds + ts) / 3) in
  mkVendorScore (option_map v_id (vendorId p)) (vendorName_of p)
    (clamp ps) (clamp ds) ts (clamp overall)
    ((if truthy (pd_totalPrice (parsedData p)) then [] else ["Price not clearly specified"])
     ++ (if truthy_str (pd_warranty (parsedData p)) then [] else ["No warranty information"])).

(** [vendorScores.sort((a, b) => b.overallScore - a.overallScore)]:
    [Array.prototype.sort] is stable, here as an insertion sort that puts a
    later element after every element of equal score. *)
Fixpoint insert (x : VendorScore) (l : list VendorScore) : list VendorScore :=
  match l with
  | [] => [x]
  | y :: t => if (overallScore y <? overallScore x)%Z then x :: y :: t else y :: insert x t
  end.

Fixpoint sort_aux (acc l : list VendorScore) : list VendorScore :=
  match l with
  | [] => acc
  | x :: t => sort_aux (insert x acc) t
  end.

Definition sort_scores (l : list VendorScore) : list VendorScore := sort_aux [] l.

Record Recommendation := mkRecommendation {
  recommendedVendorId : option nat;
  recommendedVendorName : string;
  reasoning : string;
  risks : list string;
  alternativeOption : option string
}.

Record Comparison := mkComparison {
  summary : string;
  vendorScores : list VendorScore;
  recommendation : Recommendation
}.

(** [None]: [vendorScores[0]] is [undefined] on an empty list and reading
    [recommended.vendorId] throws. *)
Definition fallbackCompareProposals (proposals : list Proposal) : option Comparison :=
  let vendorScores := sort_scores (map (score proposals) proposals) in
  match vendorScores with
  | [] => None
  | recommended :: rest =>
      Some (mkComparison
        (l2s (s2l "Compared " ++ z_to_text (Z.of_nat (length proposals))
              ++ s2l " vendor proposals based on price, delivery, and terms."))
        vendorScores
        (mkRecommendation (vs_vendorId recommended) (vs_vendorName recommended)
           (l2s (s2l (vs_vendorName recommended) ++ s2l " has the highest overall score of "
                 ++ z_to_text (overallScore recommended)
                 ++ s2l "/100 based on price competitiveness, delivery timeline, and terms."))
           ["This is a simplified analysis. Manual review recommended."]
           (match rest with
            | second :: _ => Some (vs_vendorName second ++ " as second choice")
            | [] => None
            end)))
  end.

End Compare.

(** ** [fallbackGenerateEmail]: the fixed RFP email template *)
Module Email.
Import Text.
Local Open Scope nat_scope.
Local Open Scope string_scope.

Record RFPItem := mkRFPItem {
  i_name : string;
  i_quantity : Z;
  i_specifications : option string
}.

(** The fields of an RFP record the template reads; [r_items = None] is an
    absent [items] field. *)
Record RFP := mkRFP {
  r_title : string;
  r_description : option string;
  r_budget : option Z;
  r_deliveryDays : option Z;
  r_items : option (list RFPItem);
  r_paymentTerms : option string;
  r_warranty : option string
}.

Definition nl : string := String "010"%char EmptyString.

(** The bullet U+2022, in UTF-8. *)
Definition bullet : string :=
  String "226"%char (String "128"%char (String "162"%char EmptyString)).

Definition truthy_s (o : option string) : option string :=
  match o with Some s => if String.eqb s "" then None else Some s | None => None end.

Definition truthy_z (o : option Z) : option Z :=
  match o with Some z => if (z =? 0)%Z then None else Some z | None => None end.

(** [Number.prototype.toLocaleString()] (en-US) on an integer: digit groups
    of three separated by commas. *)
Fixpoint group3 (i : nat) (rev_digits : list ascii) : list ascii :=
  match rev_digits with
  | [] => []
  | x :: t =>
      match i with
      | 3%nat => "," :: x :: group3 1 t
      | _ => x :: group3 (S i) t
      end%char
  end.

Definition toLocaleString (z : Z) : string :=
  let digits := z_to_text (Z.abs z) in
  l2s ((if (z <? 0)%Z then ["-"%char] else []) ++ rev (group3 0%nat (rev digits))).

(** [`  • ${item.name}: Quantity ${item.quantity}${specs ? ` (${specs})` : ''}`] *)
Definition item_line (it : RFPItem) : string :=
  "  " ++ bullet ++ " " ++ i_name it ++ ": Quantity " ++ l2s (z_to_text (i_quantity it))
  ++ match truthy_s (i_specifications it) with
     | Some sp => " (" ++ sp ++ ")"
     | None => ""
     end.

Fixpoint join (sep : string) (l : list string) : string :=
  match l with
  | [] => ""
  | [x] => x
  | x :: t => x ++ sep ++ join sep t
  end.

(** [rfp.items?.map(...).join('\n') || '  • As per requirements'] *)
Definition itemsList (rfp : RFP) : string :=
  let joined := match r_items rfp with
                | Some l => join nl (map item_line l)
                | None => ""
                end in
  if String.eqb joined "" then "  " ++ bullet ++ " As per requirements" else joined.

Definition subject (rfp : RFP) : string := "Request for Proposal: " ++ r_title rfp.

Definition body (rfp : RFP) (vendorName : string) : string :=
  "Dear " ++ vendorName ++ "," ++ nl ++ nl
  ++ "We are pleased to invite you to submit a proposal for the following procurement requirement:"
  ++ nl ++ nl
  ++ "PROJECT: " ++ r_title rfp ++ nl
  ++ match truthy_s (r_description rfp) with
     | Some d => nl ++ "DESCRIPTION: " ++ d
     | None => ""
     end ++ nl ++ nl
  ++ "ITEMS REQUIRED:" ++ nl
  ++ itemsList rfp ++ nl ++ nl
  ++ "BUDGET: " ++ match truthy_z (r_budget rfp) with
                   | Some b => "$" ++ toLocaleString b
                   | None => "Open to competitive quotes"
                   end ++ nl
  ++ "DELIVERY REQUIREMENT: " ++ match truthy_z (r_deliveryDays rfp) with
                                 | Some d => "Within " ++ l2s (z_to_text d) ++ " days"
                                 | None => "To be discussed"
                                 end ++ nl
  ++ "PAYMENT TERMS: " ++ match truthy_s (r_paymentTerms rfp) with
                          | Some p => p
                          | None => "Standard terms"
                          end ++ nl
  ++ "WARRANTY: " ++ match truthy_s (r_warranty rfp) with
                     | Some w => w
                     | None => "Standard warranty expected"
                     end ++ nl ++ nl
  ++ "Please provide:" ++ nl
  ++ "1. Itemized pricing for all items" ++ nl
  ++ "2. Total cost including any applicable taxes" ++ nl
  ++ "3. Delivery timeline" ++ nl
  ++ "4. Warranty terms" ++ nl
  ++ "5. Payment terms" ++ nl
  ++ "6. Any conditions or special requirements" ++ nl ++ nl
  ++ "We look forward to receiving your proposal." ++ nl ++ nl
  ++ "Best regards," ++ nl
  ++ "Procurement Team".

Record EmailContent := mkEmail { e_subject : string; e_body : string }.

Definition fallbackGenerateEmail (rfp : RFP) (vendorName : string) : EmailContent :=
  mkEmail (subject rfp) (body rfp vendorName).

(** Splitting a text at its line breaks. *)
Fixpoint lines_aux (cur : list ascii) (s : list ascii) : list string :=
  match s with
  | [] => [l2s (rev cur)]
  | c :: t => if Ascii.eqb c "010"%char then l2s (rev cur) :: lines_aux [] t
              else lines_aux (c :: cur) t
  end.

Definition lines (s : string) : list string := lines_aux [] (s2l s).

End Email.

(** ** The [GET /api/rfps/:id/compare] controller ([compareProposals]) *)
Module Controller.
Import Text Compare Service.
Local Open Scope nat_scope.
Local Open Scope string_scope.

Record StoredProposal := mkStored {
  sp_rfpId : nat;
  sp_vendorId : nat;
  sp_isParsingComplete : bool;
  sp_parsedData : ParsedData
}.

Record DB := mkDB {
  db_rfps : list nat;
  db_proposals : list StoredProposal;
  db_vendors : list Vendor
}.

(** [.populate('vendorId', ...)]: [null] when the vendor was deleted. *)
Definition populate (db : DB) (sp : StoredProposal) : Proposal :=
  mkProposal (find (fun v => Nat.eqb (v_id v) (sp_vendorId sp)) (db_vendors db))
             (sp_parsedData sp).

Inductive body :=
| BMessage (message : string)
| BSingle (message : string) (recommendedVendorId : nat) (recommendedVendorName : string)
          (reasoning : string) (risks : list string) (proposals : list Proposal)
| BData (data : json + Comparison)
| BError (message : string) (error : string).

(** [res.status(status).json(...)]; [success] is the envelope's flag and
    [BSingle] carries [comparison: null]. *)
Record response := mkResponse { status : nat; success : bool; rbody : body }.

Section Ctrl.
(** [aiService.compareProposals]: any engine. *)
Variable compare_engine : list Proposal -> envelope (json + Comparison).

(** The number of calls made to the comparison engine, and the response.
    The write-back loop over [comparisonResult.data.vendorScores] and the
    save of the RFP status after a comparison are not modelled; an
    exception there (for instance service data with no iterable
    [vendorScores]) would reach the [catch] and answer 500
    ["Error comparing proposals"] in place of the 200 modelled here. *)
Definition compareProposals (db : DB) (rfpId : nat) : nat * response :=
  if existsb (Nat.eqb rfpId) (db_rfps db) then
    let proposals :=
      map (populate db)
          (filter (fun sp => Nat.eqb (sp_rfpId sp) rfpId && sp_isParsingComplete sp)
                  (db_proposals db)) in
    match proposals with
    | [] => (0%nat, mkResponse 400 false (BMessage "No parsed proposals available for comparison"))
    | [p] =>
        (0%nat,
         match vendorId p with
         | Some v =>
             mkResponse 200 true
               (BSingle "Only one proposal available" (v_id v) (v_name v)
                  "Only one proposal received"
                  ["Single vendor option - no competitive comparison possible"] [p])
         | None =>
             (* [proposals[0].vendorId._id] on [null] throws; the catch answers 500 *)
             mkResponse 500 false
               (BError "Error comparing proposals" "Cannot read properties of null (reading '_id')")
         end)
    | _ =>
        (1%nat,
         match compare_engine proposals with
         | EnvData d _ => mkResponse 200 true (BData d)
         | EnvFail e => mkResponse 500 false (BError "Failed to compare proposals" e)
         end)
    end
  else (0%nat, mkResponse 404 false (BMessage "RFP not found")).

End Ctrl.

End Controller.

(** ** The service operations that wrap the comparison and the email
    template ([aiService.compareProposals], [aiService.generateRFPEmail]) *)
Module ServiceMore.
Import Text Compare Email Service.
Local Open Scope string_scope.

(** [fallbackCompareProposals] wrapped as the service returns it; on an
    empty list reading [recommended.vendorId] throws. *)
Definition fallback_envelope (proposals : list Proposal) : outcome (envelope (json + Comparison)) :=
  match fallbackCompareProposals proposals with
  | Some c => Returned (EnvData (inr c) true)
  | None => Threw (TypeError "Cannot read properties of undefined (reading 'vendorId')")
  end.

(** [compareProposals(rfp, proposals)]: the number of network attempts and
    the outcome.  On the configured path [proposalDetails] reads
    [p.vendorId._id] before the [try], so a [null] vendor throws there. *)
Definition compareProposals (svc : service) (proposals : list Proposal)
  : nat * outcome (envelope (json + Comparison)) :=
  match svc with
  | Unconfigured => (0%nat, fallback_envelope proposals)
  | Configured r =>
      if existsb (fun p => match vendorId p with Some _ => false | None => true end) proposals
      then (0%nat, Threw (TypeError "Cannot read properties of null (reading '_id')"))
      else (1%nat, match r with
                   | ReplyContent (JsonOk j) => Returned (EnvData (inl j) false)
                   | _ => fallback_envelope proposals
                   end)
  end.

(** [generateRFPEmail(rfp, vendorName)]: on the configured path the prompt
    reads [rfp.items.map(...)] before the [try]. *)
Definition generateRFPEmail (svc : service) (rfp : RFP) (vendorName : string)
  : nat * outcome (envelope (json + EmailContent)) :=
  match svc with
  | Unconfigured => (0%nat, Returned (EnvData (inr (fallbackGenerateEmail rfp vendorName)) true))
  | Configured r =>
      match r_items rfp with
      | None => (0%nat, Threw (TypeError "Cannot read properties of undefined (reading 'map')"))
      | Some _ =>
          (1%nat, match r with
                  | ReplyContent (JsonOk j) => Returned (EnvData (inl j) false)
                  | _ => Returned (EnvData (inr (fallbackGenerateEmail rfp vendorName)) true)
                  end)
      end
  end.

End ServiceMore.

(** ** The email service ([services/emailService]) *)
Module Mail.
Import Text.
Local Open Scope string_scope.

(** [body.replace(/\n/g, '<br>')]: every line break becomes [<br>]. *)
Definition html_of (body : string) : string :=
  l2s (flat_map (fun c => if Ascii.eqb c "010"%char then s2l "<br>" else [c]) (s2l body)).

(** A fetched message, as [fetchNewEmails] builds it; an absent [text] or
    [html] is the empty string. *)
Record InEmail := mkInEmail {
  ie_subject : string;
  ie_fromAddress : string;
  ie_text : string;
  ie_html : string
}.

(** [toLowerCase()] on the ASCII text of an email address. *)
Definition lower_s (s : string) : string := l2s (to_lower (s2l s)).

Inductive checkResult :=
| CheckOk (responses : list InEmail)
| CheckFail (error : string).

(** [checkForVendorResponses]: [fetched] is what [fetchNewEmails] resolves
    to ([inr]) or rejects with ([inl]). *)
Definition checkForVendorResponses (fetched : string + list InEmail) (vendorEmails : list string)
  : checkResult :=
  match fetched with
  | inl err => CheckFail err
  | inr emails =>
      CheckOk (filter (fun e =>
                 existsb (fun ve => String.eqb (lower_s ve) (lower_s (ie_fromAddress e)))
                         vendorEmails) emails)
  end.

End Mail.

(** ** The RFP and proposal controllers over a store of documents *)
Module Routes.
Import Text Extract ProposalExtract Email Service ServiceMore Mail.
Local Open Scope nat_scope.
Local Open Scope string_scope.

Record VendorDoc := mkVendorDoc { vd_id : nat; vd_name : string; vd_email : string }.

(** An RFP document: its id, status, the template fields and the ids in
    [selectedVendors]. *)
Record StoredRFP := mkStoredRFP {
  rf_id : nat;
  rf_status : string;
  rf_doc : RFP;
  rf_selected : list nat
}.

(** A proposal document; an absent [emailBody] is the empty string. *)
Record PRow := mkPRow {
  pr_id : nat;
  pr_rfpId : nat;
  pr_vendorId : nat;
  pr_emailBody : string;
  pr_status : string;
  pr_isParsingComplete : bool;
  pr_parsed : option (json + ProposalExtraction)
}.

Record Store := mkStore {
  st_rfps : list StoredRFP;
  st_vendors : list VendorDoc;
  st_proposals : list PRow
}.

Definition find_rfp (st : Store) (id : nat) : option StoredRFP :=
  find (fun r => Nat.eqb (rf_id r) id) (st_rfps st).

Definition find_vendor (st : Store) (id : nat) : option VendorDoc :=
  find (fun v => Nat.eqb (vd_id v) id) (st_vendors st).

Definition set_rfp (st : Store) (id : nat) (f : StoredRFP -> StoredRFP) : Store :=
  mkStore (map (fun r => if Nat.eqb (rf_id r) id then f r else r) (st_rfps st))
          (st_vendors st) (st_proposals st).

Definition with_status (s : string) (r : StoredRFP) : StoredRFP :=
  mkStoredRFP (rf_id r) s (rf_doc r) (rf_selected r).

Definition with_selected (ids : list nat) (r : StoredRFP) : StoredRFP :=
  mkStoredRFP (rf_id r) (rf_status r) (rf_doc r) ids.

(** [new Proposal(...).save()]: a fresh id. *)
Definition next_id (st : Store) : nat :=
  S (fold_left Nat.max (map pr_id (st_proposals st)) 0).

Definition add_proposal (st : Store) (p : PRow) : Store :=
  mkStore (st_rfps st) (st_vendors st) (st_proposals st ++ [p]).

(** [Proposal.findOne({ rfpId, vendorId })] finds one. *)
Definition has_proposal (st : Store) (rfpId vendorId : nat) : bool :=
  existsb (fun p => Nat.eqb (pr_rfpId p) rfpId && Nat.eqb (pr_vendorId p) vendorId)
          (st_proposals st).

(** [populate('selectedVendors')]: the ids whose vendor still exists. *)
Definition populate_selected (st : Store) (r : StoredRFP) : list VendorDoc :=
  flat_map (fun id => match find_vendor st id with Some v => [v] | None => [] end)
           (rf_selected r).

(** [if (rfp.status === 'sent') rfp.status = 'responses_received'] *)
Definition mark_received (st : Store) (r : StoredRFP) : Store :=
  if String.eqb (rf_status r) "sent" then set_rfp st (rf_id r) (with_status "responses_received")
  else st.

(** JavaScript truthiness of a request-body value. *)
Definition js_truthy (v : jsval) : bool :=
  match v with
  | JSString s => negb (String.eqb s "")
  | JSNumber z => negb (z =? 0)%Z
  | JSBool b => b
  | JSNull | JSUndefined => false
  end.

(** Mongoose's cast of a request value to a [String] field. *)
Definition cast_string (v : jsval) : string :=
  match v with
  | JSString s => s
  | JSNumber z => l2s (z_to_text z)
  | JSBool b => if b then "true" else "false"
  | JSNull | JSUndefined => ""
  end.

(** The status code and [message] of a JSON answer. *)
Record answer := mkAnswer { code : nat; message : string }.

(** *** [POST /api/rfps/:id/vendors] ([selectVendors]) *)

(** [vendorIds = None] is a missing or non-array value. *)
Definition selectVendors (st : Store) (rfpId : nat) (vendorIds : option (list nat)) : Store * answer :=
  match vendorIds with
  | None => (st, mkAnswer 400 "vendorIds array is required")
  | Some ids =>
      match find_rfp st rfpId with
      | None => (st, mkAnswer 404 "RFP not found")
      | Some _ =>
          let vendors := filter (fun v => existsb (Nat.eqb (vd_id v)) ids) (st_vendors st) in
          if negb (Nat.eqb (length vendors) (length ids))
          then (st, mkAnswer 400 "One or more vendor IDs are invalid")
          else (set_rfp st rfpId (with_selected ids), mkAnswer 200 "Vendors selected successfully")
      end
  end.

(** *** [POST /api/rfps/:id/send] ([sendRFPToVendors]) *)

Record SendRow := mkSendRow {
  sr_vendorId : nat;
  sr_vendorName : string;
  sr_email : string;
  sr_sent : bool;
  sr_error : option string
}.

Section Send.
(** [emailService.sendEmail(to, subject, body)]: [success] and [error]. *)
Variable sendEmail : string -> json + EmailContent -> bool * option string.
Variable svc : service.

(** The [for ... of] loop; an exception of [generateRFPEmail] leaves it. *)
Fixpoint send_all (doc : RFP) (vs : list VendorDoc) : outcome (list SendRow) :=
  match vs with
  | [] => Returned []
  | v :: t =>
      match snd (generateRFPEmail svc doc (vd_name v)) with
      | Threw e => Threw e
      | Returned env =>
          let row := match env with
                     | EnvData d _ =>
                         let '(ok, err) := sendEmail (vd_email v) d in
                         mkSendRow (vd_id v) (vd_name v) (vd_email v) ok err
                     | EnvFail _ =>
                         mkSendRow (vd_id v) (vd_name v) (vd_email v) false
                           (Some "Failed to generate email content")
                     end in
          match send_all doc t with
          | Returned rows => Returned (row :: rows)
          | Threw e => Threw e
          end
      end
  end.

Definition sendRFPToVendors (st : Store) (rfpId : nat) : Store * answer * list SendRow :=
  match find_rfp st rfpId with
  | None => (st, mkAnswer 404 "RFP not found", [])
  | Some r =>
      match populate_selected st r with
      | [] => (st, mkAnswer 400 "No vendors selected for this RFP", [])
      | vs =>
          match send_all (rf_doc r) vs with
          | Threw _ => (st, mkAnswer 500 "Error sending RFP", [])
          | Returned rows =>
              (set_rfp st rfpId (with_status "sent"), mkAnswer 200 "RFP sent to vendors", rows)
          end
      end
  end.

End Send.

(** *** [POST /api/rfps] ([createRFP]) *)

(** The document built from [parseResult.data]: its source, [originalInput],
    [status] and whether a [deadline] is set. *)
Record NewRFP := mkNewRFP {
  n_data : json + ExtractionResult;
  n_originalInput : string;
  n_status : string;
  n_hasDeadline : bool
}.

(** The value of a member of a parsed JSON object ([JSON.parse] keeps the
    last of duplicate keys). *)
Definition json_member (j : json) (k : string) : option json :=
  match j with
  | JObjV fields =>
      match find (fun kv => String.eqb (fst kv) k) (rev fields) with
      | Some kv => Some (snd kv)
      | None => None
      end
  | _ => None
  end.

Definition json_truthy (o : option json) : bool :=
  match o with
  | Some (JBoolV b) => b
  | Some (JNumV z) => negb (z =? 0)%Z
  | Some (JStrV s) => negb (String.eqb s "")
  | Some (JArrV _) | Some (JObjV _) => true
  | Some JNullV | None => false
  end.

(** [if (parsedData.deliveryDays)]. *)
Definition has_deadline (d : json + ExtractionResult) : bool :=
  match d with
  | inl j => json_truthy (json_member j "deliveryDays")
  | inr x => match deliveryDays x with Some z => negb (z =? 0)%Z | None => false end
  end.

Section Create.
(** Mongoose's validation of the document on [rfp.save()]. *)
Variable validates : NewRFP -> bool.

Definition createRFP (svc : service) (naturalLanguageInput : jsval) : answer * option NewRFP :=
  if negb (js_truthy naturalLanguageInput)
  then (mkAnswer 400 "Natural language input is required", None)
  else
    match snd (parseRFPFromNaturalLanguage svc naturalLanguageInput) with
    | Threw _ => (mkAnswer 500 "Error creating RFP", None)
    | Returned (EnvFail _) => (mkAnswer 500 "Failed to parse RFP", None)
    | Returned (EnvData d _) =>
        let doc := mkNewRFP d (cast_string naturalLanguageInput) "draft" (has_deadline d) in
        if validates doc then (mkAnswer 201 "RFP created successfully", Some doc)
        else (mkAnswer 500 "Error creating RFP", None)
    end.
End Create.

(** *** [POST /api/proposals] ([createProposal]) *)

(** [rfpId = None] / [vendorId = None] is a missing or falsy value. *)
Definition createProposal (st : Store) (rfpId vendorId : option nat) (emailBody : string)
  : Store * answer :=
  match rfpId, vendorId with
  | Some r, Some v =>
      match find_rfp st r with
      | None => (st, mkAnswer 404 "RFP not found")
      | Some rfp =>
          match find_vendor st v with
          | None => (st, mkAnswer 404 "Vendor not found")
          | Some _ =>
              if has_proposal st r v
              then (st, mkAnswer 400 "A proposal from this vendor already exists for this RFP")
              else
                let st1 := add_proposal st (mkPRow (next_id st) r v emailBody "received" false None) in
                (mark_received st1 rfp, mkAnswer 201 "Proposal created successfully")
          end
      end
  | _, _ => (st, mkAnswer 400 "rfpId and vendorId are required")
  end.

(** *** [POST /api/proposals/simulate] ([simulateProposal]) *)

Section Parsed.
(** Mongoose's cast of a parse result into [parsedData] on [save()]. *)
Variable json_castable : json -> bool.

(** A [NaN] total cannot be cast to [Number]. *)
Definition castable (d : json + ProposalExtraction) : bool :=
  match d with
  | inl j => json_castable j
  | inr x => match totalPrice x with QNaN => false | _ => true end
  end.

Definition mark_parsed (p : PRow) (d : json + ProposalExtraction) : PRow :=
  mkPRow (pr_id p) (pr_rfpId p) (pr_vendorId p) (pr_emailBody p) "parsed" true (Some d).

Definition simulateProposal (svc : service) (st : Store) (rfpId vendorId : option nat)
  (proposalText : jsval) : Store * answer :=
  match rfpId, vendorId, js_truthy proposalText with
  | Some r, Some v, true =>
      match find_rfp st r, find_vendor st v with
      | Some rfp, Some _ =>
          let row := mkPRow (next_id st) r v (cast_string proposalText) "received" false None in
          let st1 := add_proposal st row in
          match snd (parseVendorProposal svc proposalText) with
          | Threw _ => (st1, mkAnswer 500 "Error simulating proposal")
          | Returned (EnvFail _) =>
              (mark_received st1 rfp, mkAnswer 201 "Proposal simulated and parsed successfully")
          | Returned (EnvData d _) =>
              if castable d
              then (mark_received (add_proposal st (mark_parsed row d)) rfp,
                    mkAnswer 201 "Proposal simulated and parsed successfully")
              else (st1, mkAnswer 500 "Error simulating proposal")
          end
      | _, _ => (st, mkAnswer 404 "RFP or Vendor not found")
      end
  | _, _, _ => (st, mkAnswer 400 "rfpId, vendorId, and proposalText are required")
  end.

(** *** [POST /api/proposals/:id/parse] ([parseProposal]) *)

Definition update_proposal (st : Store) (id : nat) (f : PRow -> PRow) : Store :=
  mkStore (st_rfps st) (st_vendors st)
          (map (fun p => if Nat.eqb (pr_id p) id then f p else p) (st_proposals st)).

Definition parseProposal (svc : service) (st : Store) (id : nat) : Store * answer :=
  match find (fun p => Nat.eqb (pr_id p) id) (st_proposals st) with
  | None => (st, mkAnswer 404 "Proposal not found")
  | Some p =>
      if String.eqb (pr_emailBody p) "" then (st, mkAnswer 400 "No email body to parse")
      else
        match snd (parseVendorProposal svc (JSString (pr_emailBody p))) with
        | Threw _ => (st, mkAnswer 500 "Error parsing proposal")
        | Returned (EnvFail _) => (st, mkAnswer 500 "Failed to parse proposal")
        | Returned (EnvData d _) =>
            if castable d
            then (update_proposal st id (fun q => mark_parsed q d),
                  mkAnswer 200 "Proposal parsed successfully")
            else (st, mkAnswer 500 "Error parsing proposal")
        end
  end.
End Parsed.

(** *** [POST /api/proposals/check-emails] ([checkEmails]) *)

(** One turn of the [for (const email of result.responses)] loop: the
    store and the new proposals so far. *)
Definition check_step (rfp : StoredRFP) (selected : list VendorDoc)
  (acc : Store * list PRow) (email : InEmail) : Store * list PRow :=
  let '(st, created) := acc in
  match find (fun v => String.eqb (lower_s (vd_email v)) (lower_s (ie_fromAddress email))) selected with
  | None => acc
  | Some v =>
      if has_proposal st (rf_id rfp) (vd_id v) then acc
      else
        let body := if String.eqb (ie_text email) "" then ie_html email else ie_text email in
        let p := mkPRow (next_id st) (rf_id rfp) (vd_id v) body "received" false None in
        (add_proposal st p, (created ++ [p])%list)
  end.

Definition checkEmails (fetched : string + list InEmail) (st : Store) (rfpId : nat)
  : Store * answer * list PRow :=
  match find_rfp st rfpId with
  | None => (st, mkAnswer 404 "RFP not found", [])
  | Some rfp =>
      let selected := populate_selected st rfp in
      match checkForVendorResponses fetched (map vd_email selected) with
      | CheckFail _ => (st, mkAnswer 500 "Failed to check emails", [])
      | CheckOk responses =>
          let '(st1, created) := fold_left (check_step rfp selected) responses (st, []) in
          let st2 := match created with [] => st1 | _ :: _ => mark_received st1 rfp end in
          (st2, mkAnswer 200 ("Found " ++ l2s (z_to_text (Z.of_nat (length responses)))
                              ++ " emails, created " ++ l2s (z_to_text (Z.of_nat (length created)))
                              ++ " new proposals"), created)
      end
  end.

End Routes.

(** ** [GET /api/rfps/:id/compare] with [aiService.compareProposals] *)
Module CompareRoute.
Import Text Compare Service ServiceMore Controller.
Local Open Scope nat_scope.
Local Open Scope string_scope.

(** The controller of [Controller.compareProposals] with the service
    itself in place of the engine: the number of network attempts and the
    response; an exception of the service reaches the [catch].  As there,
    the score write-back loop and the RFP status save that follow a
    successful comparison are not modelled. *)
Definition compareRoute (svc : service) (db : DB) (rfpId : nat) : nat * response :=
  if existsb (Nat.eqb rfpId) (db_rfps db) then
    let proposals :=
      map (populate db)
          (filter (fun sp => Nat.eqb (sp_rfpId sp) rfpId && sp_isParsingComplete sp)
                  (db_proposals db)) in
    match proposals with
    | [] => (0%nat, mkResponse 400 false (BMessage "No parsed proposals available for comparison"))
    | [p] =>
        (0%nat,
         match vendorId p with
         | Some v =>
             mkResponse 200 true
               (BSingle "Only one proposal available" (v_id v) (v_name v)
                  "Only one proposal received"
                  ["Single vendor option - no competitive comparison possible"] [p])
         | None =>
             mkResponse 500 false
               (BError "Error comparing proposals" "Cannot read properties of null (reading '_id')")
         end)
    | _ =>
        let '(n, out) := ServiceMore.compareProposals svc proposals in
        (n, match out with
            | Threw (TypeError m) => mkResponse 500 false (BError "Error comparing proposals" m)
            | Returned (EnvData d _) => mkResponse 200 true (BData d)
            | Returned (EnvFail e) => mkResponse 500 false (BError "Failed to compare proposals" e)
            end)
    end
  else (0%nat, mkResponse 404 false (BMessage "RFP not found")).

End CompareRoute.

(** ** Terms of the specification and concrete inputs

    The specification's wording of a few quantities, kept apart from the
    code's definitions they are compared with, and the inputs the
    properties are evaluated on. *)
Module Scenarios.
Import Text Compare.
Local Open Scope Q_scope.
Local Open Scope string_scope.

Definition monitor_example : string := "2 monitors with 8GB RAM, 27 inch".

(** [minPrice] and [maxPrice] as the specification words them: the minimum
    over the proposals that have a price (0 if none), and the maximum of
    the totals-or-zero. *)
Definition spec_minPrice (proposals : list Proposal) : Q :=
  match truthy_prices proposals with
  | [] => 0
  | x :: xs => fold_left Qmin xs x
  end.

Definition spec_maxPrice (proposals : list Proposal) : Q :=
  match map price_or_zero proposals with
  | [] => 0
  | x :: xs => fold_left Qmax xs x
  end.

(** The returned [vendorScores]; none when the comparison throws. *)
Definition returned_scores (o : option Comparison) : list VendorScore :=
  match o with Some r => vendorScores r | None => [] end.

(** The delivery days for which the delivery formula stays in [0,100]. *)
Definition delivery_in_range (p : Proposal) : Prop :=
  match truthy (pd_deliveryDays (parsedData p)) with
  | None => True
  | Some d => (0 <= d <= 120) \/ 999 <= d
  end.

Definition desc_rel (a b : VendorScore) : Prop := (overallScore b <= overallScore a)%Z.

Definition same_score (k : Z) (v : VendorScore) : bool := Z.eqb (overallScore v) k.

Definition example_a : Proposal :=
  mkProposal (Some (mkVendor 1 "Acme")) (mkParsedData (Some 5000) (Some 10) None).
Definition example_b : Proposal :=
  mkProposal (Some (mkVendor 2 "Globex")) (mkParsedData (Some 8000) (Some 30) None).
Definition example_ps : list Proposal := [example_a; example_b].

(** The scores as the specification states them, for comparison with the
    code: the price formula for every proposal with a price, the delivery
    formula whenever the field is below 999, and the overall score as the
    mean of the three returned sub-scores. *)
Definition spec_priceScore (ps : list Proposal) (p : Proposal) : Z :=
  match pd_totalPrice (parsedData p) with
  | Some price =>
      let span := spec_maxPrice ps - spec_minPrice ps in
      clamp (js_round (100 - ((price - spec_minPrice ps) / (if Qeq_bool span 0 then 1 else span)) * 50))
  | None => 50%Z
  end.

Definition spec_deliveryScore (p : Proposal) : Z :=
  match pd_deliveryDays (parsedData p) with
  | Some d => if qlt d 999 then clamp (js_round (100 - (d / 60) * 50)) else 50%Z
  | None => 50%Z
  end.

Definition spec_overallScore (v : VendorScore) : Z :=
  clamp (js_round (inject_Z (priceScore v + deliveryScore v + termsScore v) / 3)).

Definition slow_proposal : Proposal :=
  mkProposal (Some (mkVendor 3 "Initech")) (mkParsedData None (Some 180) None).

Definition negative_price_proposal : Proposal :=
  mkProposal (Some (mkVendor 4 "Hooli")) (mkParsedData (Some (-100)) (Some 10) None).

Definition same_day_proposal : Proposal :=
  mkProposal (Some (mkVendor 5 "Umbrella")) (mkParsedData (Some 5000) (Some 0) None).

(** The email template: the text before and after the items list of
    [body], and the absence of line breaks in a text. *)
Import Email.






Definition example_rfp : RFP :=
  mkRFP "Office equipment" (Some "Equipment for the new office") (Some 50000%Z) (Some 30%Z)
    (Some [mkRFPItem "Laptop" 20 (Some "16GB RAM"); mkRFPItem "Monitor" 15 None])
    (Some "Net 30") None.

(** A proposal whose vendor was deleted: [deleteVendor] leaves the
    vendor's proposals in place. *)
Definition deleted_vendor_db : Controller.DB :=
  Controller.mkDB [1%nat]
    [Controller.mkStored 1 7 true (mkParsedData (Some 5000) (Some 10) None)] [].

End Scenarios.

(** ** Terms of the properties of the routes and of the mail text *)
Module MoreTerms.
Import Text Mail Routes.
Local Open Scope string_scope.

(** A character other than the group separator. *)
Definition not_comma (c : ascii) : bool := negb (Ascii.eqb c ",").

(** The replacement [body.replace(/\n/g, '<br>')] makes for one character. *)
Definition br (c : ascii) : list ascii :=
  if Ascii.eqb c "010"%char then s2l "<br>" else [c].

(** The (RFP, vendor) pair of a proposal, and a store holding at most one
    proposal per pair. *)
Definition pair_of (p : PRow) : nat * nat := (pr_rfpId p, pr_vendorId p).

Definition unique_pairs (ps : list PRow) : Prop := NoDup (map pair_of ps).

(** A store with one RFP sent to two vendors and no proposal yet. *)
Definition example_store : Store :=
  mkStore [mkStoredRFP 1 "sent" Scenarios.example_rfp [2; 3]%nat]
          [mkVendorDoc 2 "Acme" "sales@acme.com"; mkVendorDoc 3 "Globex" "bids@globex.com"]
          [].

(** A reply from the first vendor, its address in another case. *)
Definition acme_reply : InEmail :=
  mkInEmail "RE: Office equipment" "Sales@ACME.com" "Total: $5000, delivery in 10 days" "".

End MoreTerms.

(** * Properties *)

(** ** The regex RFP extractor *)
Module ExtractFacts.
Import Scenarios.
Import Text Regex Extract Service.
Local Open Scope nat_scope.
Local Open Scope string_scope.

Lemma set_spec_at_0 (sp : string) (it : Item) (rest : list Item) :
  set_spec_at 0 sp (it :: rest) = set_spec it sp :: rest.
Proof. reflexivity. Qed.

Lemma l2s_inj (a b : list ascii) : l2s a = l2s b -> a = b.
Proof.
  unfold l2s; intros H.
  rewrite <- (list_ascii_of_string_of_list_ascii a),
          <- (list_ascii_of_string_of_list_ascii b), H.
  reflexivity.
Qed.

(** The extracted item list is never empty; with no category match it is
    the single placeholder item. *)
Lemma fallbackParseRFP_items (s : string) :
  1 <= length (items (fallbackParseRFP s)) /\
  (extract_items (s2l s) = [] -> items (fallbackParseRFP s) = [placeholder (s2l s)]).
Proof.
  unfold fallbackParseRFP; cbn [items].
  split.
  - destruct (apply_screen _ _); cbn [length]; lia.
  - intros E. rewrite E.
    unfold apply_ram, apply_screen.
    destruct (search ram_re (s2l s)), (search screen_re (s2l s)); reflexivity.
Qed.

(** A string input never makes the fallback throw. *)
Lemma fallbackParseRFP_js_string (s : string) :
  fallbackParseRFP_js (JSString s) = Returned (fallbackParseRFP s).
Proof. reflexivity. Qed.

(** Claim C4: on the scenario sentence of the specification the regex
    extractor yields the two items Laptop (5, "16GB RAM") and Monitor
    (2, "24 inch"), budget 10000, 14 delivery days, payment terms "Net 30"
    and warranty "2 years warranty". *)
Theorem fallbackParseRFP_scenario :
  let r := fallbackParseRFP scenario in
  items r = [mkItem "Laptop" 5 "16GB RAM"; mkItem "Monitor" 2 "24 inch"] /\
  budget r = JNum 10000 /\
  deliveryDays r = Some 14%Z /\
  paymentTerms (requirements r) = Some "Net 30" /\
  warranty (requirements r) = Some "2 years warranty".
Proof. vm_compute. repeat split; reflexivity. Qed.

(** Claim C10: when the first extracted item is a monitor and the text has
    both a RAM phrase and a screen-size phrase, the screen size overwrites
    the RAM specification of that item: its specifications are
    "<n> inch" (with <n> the first screen-size number) and differ from the
    "<m>GB RAM" text set just before. *)
Theorem monitor_screen_overwrites_ram (s : string) (it : Item) (rest : list Item)
  (mr ms : mtch) :
  extract_items (s2l s) = it :: rest ->
  includes (to_lower (s2l (name it))) (s2l "monitor") = true ->
  search ram_re (s2l s) = Some mr ->
  search screen_re (s2l s) = Some ms ->
  items (fallbackParseRFP s)
    = mkItem (name it) (quantity it) (l2s (cap ms 1 ++ s2l " inch")) :: rest /\
  l2s (cap ms 1 ++ s2l " inch") <> l2s (cap mr 1 ++ s2l "GB RAM").
Proof.
  intros Hitems Hmon Hram Hscreen.
  split.
  - unfold fallbackParseRFP; cbn [items].
    unfold apply_screen, apply_ram.
    rewrite Hitems, Hram, Hscreen, set_spec_at_0.
    cbn [find_monitor set_spec name].
    rewrite Hmon.
    reflexivity.
  - intros E. apply l2s_inj in E.
    apply (f_equal (@rev ascii)) in E.
    rewrite !rev_app_distr in E.
    cbn in E. discriminate E.
Qed.


Lemma monitor_screen_overwrites_ram_witness :
  items (fallbackParseRFP monitor_example) = [mkItem "Monitor" 2 "27 inch"].
Proof.
  destruct (monitor_screen_overwrites_ram monitor_example (mkItem "Monitor" 2 "") []
              (match search ram_re (s2l monitor_example) with Some m => m | None => ([], []) end)
              (match search screen_re (s2l monitor_example) with Some m => m | None => ([], []) end))
    as [E _].
  - vm_compute. reflexivity.
  - vm_compute. reflexivity.
  - vm_compute. reflexivity.
  - vm_compute. reflexivity.
  - rewrite E. vm_compute. reflexivity.
Defined.

End ExtractFacts.

(** ** The parsing envelopes *)
Module ServiceFacts.
Import Text Extract ProposalExtract Service ExtractFacts.
Local Open Scope nat_scope.
Local Open Scope string_scope.

(** On every string input RFP extraction returns (never throws) a success
    envelope; when the data comes from the fallback it has at least one
    item, the placeholder item when no category matched; data from the
    service is passed on as parsed, without such a check. *)
Theorem parseRFP_string_success (svc : service) (s : string) :
  exists n env,
    parseRFPFromNaturalLanguage svc (JSString s) = (n, Returned env) /\
    success env = true /\
    (forall d, env = EnvData (inr d) true ->
       1 <= length (items d) /\
       (extract_items (s2l s) = [] -> items d = [placeholder (s2l s)])) /\
    (forall j uf, env = EnvData (inl j) uf ->
       svc = Configured (ReplyContent (JsonOk j)) /\ uf = false) /\
    (forall d uf, env = EnvData (inr d) uf -> d = fallbackParseRFP s /\ uf = true).
Proof.
  assert (Hfb : forall d, EnvData (D := json + ExtractionResult) (inr (fallbackParseRFP s)) true
                          = EnvData (inr d) true ->
                1 <= length (items d) /\
                (extract_items (s2l s) = [] -> items d = [placeholder (s2l s)])).
  { intros d E. injection E as <-. apply fallbackParseRFP_items. }
  assert (Hd : forall d uf, EnvData (D := json + ExtractionResult) (inr (fallbackParseRFP s)) true
                             = EnvData (inr d) uf -> d = fallbackParseRFP s /\ uf = true).
  { intros d uf E. injection E as <- <-. auto. }
  destruct svc as [|r].
  - exists 0, (EnvData (inr (fallbackParseRFP s)) true).
    refine (conj eq_refl (conj eq_refl (conj Hfb (conj _ Hd)))).
    intros j uf E; discriminate E.
  - exists 1.
    destruct r as [m|[j|m]]; cbn.
    + eexists. refine (conj eq_refl (conj eq_refl (conj Hfb (conj _ Hd)))).
      intros j uf E; discriminate E.
    + eexists. refine (conj eq_refl (conj eq_refl (conj _ (conj _ _)))).
      * intros d E; discriminate E.
      * intros j' uf E; injection E as <- <-; auto.
      * intros d uf E; discriminate E.
    + eexists. refine (conj eq_refl (conj eq_refl (conj Hfb (conj _ Hd)))).
      intros j uf E; discriminate E.
Qed.

(** A non-string request value makes the guarded fallback fail, and a
    service reply with no [items] at all is passed on as data. *)
Lemma parseRFP_counterexample :
  parseRFPFromNaturalLanguage (Configured (ReplyThrows "Request failed with status code 400")) JSNull
    = (1, Returned (EnvFail "Request failed with status code 400")) /\
  parseRFPFromNaturalLanguage (Configured (ReplyContent (JsonOk (JObjV [])))) (JSString "5 laptops")
    = (1, Returned (EnvData (inl (JObjV [])) false)).
Proof. split; reflexivity. Qed.

(** Claim C2 (code bug): RFP extraction is not total. With the service
    unconfigured, every truthy request value that is not a string (one that
    passes [createRFP]'s check) makes the unguarded fallback throw; and
    content from the service that parses as JSON is returned as success
    data without any check, so a reply with no [items] is a success. *)
Theorem parseRFP_not_total (v : jsval) (s : string) (j : json) :
  Routes.js_truthy v = true -> (forall s', v <> JSString s') ->
  parseRFPFromNaturalLanguage Unconfigured v
    = (0, Threw (TypeError "userInput.toLowerCase is not a function")) /\
  parseRFPFromNaturalLanguage (Configured (ReplyContent (JsonOk j))) (JSString s)
    = (1, Returned (EnvData (inl j) false)).
Proof.
  intros Ht Hns. split; [|reflexivity].
  destruct v as [s'|z|b| |]; cbn in Ht |- *; try discriminate.
  - exfalso. exact (Hns s' eq_refl).
  - reflexivity.
  - reflexivity.
Qed.

Lemma parseRFP_not_total_witness :
  parseRFPFromNaturalLanguage Unconfigured (JSNumber 42)
    = (0, Threw (TypeError "userInput.toLowerCase is not a function")).
Proof.
  exact (proj1 (parseRFP_not_total (JSNumber 42) "5 laptops" (JObjV []) eq_refl
                  ltac:(intros s' E; discriminate E))).
Defined.

(** The parts of the failure policy that hold: no network attempt when the
    service is unconfigured, and the fallback after a failed call, for
    string inputs. *)
Lemma parse_fallback_on_strings (s : string) (r : reply) :
  parseRFPFromNaturalLanguage Unconfigured (JSString s)
    = (0, Returned (EnvData (inr (fallbackParseRFP s)) true)) /\
  parseVendorProposal Unconfigured (JSString s)
    = (0, Returned (EnvData (inr (fallbackParseProposal s)) true)) /\
  (message r <> None ->
   parseRFPFromNaturalLanguage (Configured r) (JSString s)
     = (1, Returned (EnvData (inr (fallbackParseRFP s)) true)) /\
   parseVendorProposal (Configured r) (JSString s)
     = (1, Returned (EnvData (inr (fallbackParseProposal s)) true))).
Proof.
  split; [reflexivity|]. split; [reflexivity|].
  intros Hmsg. destruct r as [m|[j|m]];
    [split; reflexivity | exfalso; apply Hmsg; reflexivity | split; reflexivity].
Qed.

(** Claim C3 (code bug): when the fallback throws, the exception escapes
    [parseRFPFromNaturalLanguage] on the unconfigured path and
    [parseVendorProposal] after a failed call, while the configured path of
    [parseRFPFromNaturalLanguage] turns it into [{success: false, error}]. *)
Theorem parse_fallback_exception_escapes :
  parseRFPFromNaturalLanguage Unconfigured (JSNumber 42)
    = (0, Threw (TypeError "userInput.toLowerCase is not a function")) /\
  parseVendorProposal (Configured (ReplyThrows "Request failed")) (JSNumber 42)
    = (1, Threw (TypeError "emailBody.toLowerCase is not a function")) /\
  parseVendorProposal Unconfigured (JSNumber 42)
    = (0, Threw (TypeError "emailBody.toLowerCase is not a function")) /\
  parseRFPFromNaturalLanguage (Configured (ReplyThrows "Request failed")) (JSNumber 42)
    = (1, Returned (EnvFail "Request failed")).
Proof. repeat split. Qed.

End ServiceFacts.

(** ** The fallback comparison *)
Module CompareFacts.
Import Text Compare Scenarios.
Local Open Scope Q_scope.


(** *** Arithmetic *)

Lemma round_bounds (a b : Z) (x : Q) :
  inject_Z a <= x -> x <= inject_Z b -> (a <= js_round x <= b)%Z.
Proof.
  intros Ha Hb. unfold js_round.
  pose proof (Qfloor_le (x + (1 # 2))) as H1.
  pose proof (Qlt_floor (x + (1 # 2))) as H2.
  set (z := Qfloor (x + (1 # 2))) in *.
  rewrite inject_Z_plus in H2.
  change (inject_Z 1) with 1 in H2.
  split.
  - destruct (Z_le_gt_dec a z) as [|Hlt]; [assumption|exfalso].
    assert (Hz : (z + 1 <= a)%Z) by lia.
    rewrite Zle_Qle in Hz. rewrite inject_Z_plus in Hz.
    change (inject_Z 1) with 1 in Hz. lra.
  - destruct (Z_le_gt_dec z b) as [|Hlt]; [assumption|exfalso].
    assert (Hz : (b + 1 <= z)%Z) by lia.
    rewrite Zle_Qle in Hz. rewrite inject_Z_plus in Hz.
    change (inject_Z 1) with 1 in Hz. lra.
Qed.

Lemma clamp_range (z : Z) : (0 <= clamp z <= 100)%Z.
Proof. unfold clamp; lia. Qed.

Lemma clamp_id (z : Z) : (0 <= z <= 100)%Z -> clamp z = z.
Proof. unfold clamp; lia. Qed.

Lemma qlt_true (a b : Q) : qlt a b = true -> a < b.
Proof.
  unfold qlt. destruct (Qle_bool b a) eqn:E; [discriminate|].
  intros _. apply Qnot_le_lt. intros H. apply Qle_bool_iff in H. congruence.
Qed.

Lemma qlt_false (a b : Q) : qlt a b = false -> b <= a.
Proof.
  unfold qlt. destruct (Qle_bool b a) eqn:E; [|discriminate].
  intros _. apply Qle_bool_iff. exact E.
Qed.

Lemma truthy_some (o : option Q) (q : Q) : truthy o = Some q -> o = Some q /\ ~ q == 0.
Proof.
  unfold truthy. destruct o as [x|]; [|discriminate].
  destruct (Qeq_bool x 0) eqn:E; [discriminate|].
  intros H; injection H as <-. split; [reflexivity|].
  intros Hx. apply Qeq_bool_iff in Hx. congruence.
Qed.

(** *** Minimum and maximum *)

Lemma fold_Qmin_le (xs : list Q) (x y : Q) : In y (x :: xs) -> fold_left Qmin xs x <= y.
Proof.
  revert x y; induction xs as [|a xs IH]; intros x y Hy; cbn [fold_left].
  - destruct Hy as [<-|[]]. apply Qle_refl.
  - destruct Hy as [<-|[<-|Hy]].
    + eapply Qle_trans; [apply IH; left; reflexivity | apply Q.le_min_l].
    + eapply Qle_trans; [apply IH; left; reflexivity | apply Q.le_min_r].
    + apply IH; right; exact Hy.
Qed.

Lemma fold_Qmax_ge (xs : list Q) (x y : Q) : In y (x :: xs) -> y <= fold_left Qmax xs x.
Proof.
  revert x y; induction xs as [|a xs IH]; intros x y Hy; cbn [fold_left].
  - destruct Hy as [<-|[]]. apply Qle_refl.
  - destruct Hy as [<-|[<-|Hy]].
    + eapply Qle_trans; [apply Q.le_max_l | apply IH; left; reflexivity].
    + eapply Qle_trans; [apply Q.le_max_r | apply IH; left; reflexivity].
    + apply IH; right; exact Hy.
Qed.

Lemma fold_Qmin_in (xs : list Q) (x : Q) : exists y, In y (x :: xs) /\ fold_left Qmin xs x == y.
Proof.
  revert x; induction xs as [|a xs IH]; intros x; cbn [fold_left].
  - exists x. split; [left; reflexivity | apply Qeq_refl].
  - destruct (IH (Qmin x a)) as (y & [Hy|Hy] & E).
    + subst y. destruct (Q.min_dec x a) as [Hm|Hm].
      * exists x. split; [left; reflexivity | exact (Qeq_trans _ _ _ E Hm)].
      * exists a. split; [right; left; reflexivity | exact (Qeq_trans _ _ _ E Hm)].
    + exists y. split; [right; right; exact Hy | exact E].
Qed.

Lemma truthy_prices_nonzero (ps : list Proposal) (y : Q) :
  In y (truthy_prices ps) -> ~ y == 0.
Proof.
  unfold truthy_prices. intros Hy.
  apply in_flat_map in Hy as (pr & _ & Hy).
  destruct (truthy (pd_totalPrice (parsedData pr))) eqn:E; [|destruct Hy].
  destruct Hy as [<-|[]].
  exact (proj2 (truthy_some _ _ E)).
Qed.

(** For a proposal with a positive price both bounds are finite, equal the
    specification's ones, and enclose the price. *)
Lemma price_bounds (ps : list Proposal) (p : Proposal) (price : Q) :
  In p ps -> truthy (pd_totalPrice (parsedData p)) = Some price -> 0 < price ->
  minPrice ps = Some (spec_minPrice ps) /\ maxPrice ps = Some (spec_maxPrice ps) /\
  spec_minPrice ps <= price /\ price <= spec_maxPrice ps.
Proof.
  intros Hp Ht Hpos.
  assert (Hin1 : In price (truthy_prices ps)).
  { unfold truthy_prices. apply in_flat_map. exists p. split; [exact Hp|].
    rewrite Ht. left; reflexivity. }
  assert (Hin2 : In price (map price_or_zero ps)).
  { replace price with (price_or_zero p) by (unfold price_or_zero, or_num; rewrite Ht; reflexivity).
    apply in_map. exact Hp. }
  pose proof (truthy_prices_nonzero ps) as Hnz.
  unfold minPrice, maxPrice, spec_minPrice, spec_maxPrice in *.
  destruct (truthy_prices ps) as [|x xs]; [destruct Hin1|].
  destruct (map price_or_zero ps) as [|y ys]; [destruct Hin2|].
  pose proof (fold_Qmin_le xs x price Hin1) as Hmin.
  pose proof (fold_Qmax_ge ys y price Hin2) as Hmax.
  destruct (fold_Qmin_in xs x) as (z & Hz & Ez).
  destruct (Qeq_bool (fold_left Qmin xs x) 0) eqn:Eb1.
  { exfalso. apply Qeq_bool_iff in Eb1. apply (Hnz z Hz).
    exact (Qeq_trans _ _ _ (Qeq_sym _ _ Ez) Eb1). }
  destruct (Qeq_bool (fold_left Qmax ys y) 0) eqn:Eb2.
  { exfalso. apply Qeq_bool_iff in Eb2. lra. }
  repeat split; assumption.
Qed.

Lemma rawPriceScore_range (ps : list Proposal) (p : Proposal) :
  In p ps -> (50 <= rawPriceScore ps p <= 100)%Z.
Proof.
  intros Hp. unfold rawPriceScore.
  destruct (qlt 0 (price_or_zero p)) eqn:Elt; [|lia].
  apply qlt_true in Elt.
  unfold price_or_zero, or_num in *.
  destruct (truthy (pd_totalPrice (parsedData p))) as [price|] eqn:Ht;
    [|exfalso; apply (Qlt_irrefl 0); exact Elt].
  destruct (price_bounds ps p price Hp Ht Elt) as (-> & -> & Hmn & Hmx).
  set (mn := spec_minPrice ps) in *. set (mx := spec_maxPrice ps) in *.
  destruct (Qeq_bool (mx - mn) 0) eqn:Es.
  - apply Qeq_bool_iff in Es.
    assert (Hd : (price - mn) / 1 == price - mn) by field.
    apply round_bounds; change (inject_Z 50) with 50; change (inject_Z 100) with 100; lra.
  - assert (Hspan : 0 < mx - mn).
    { destruct (Qlt_le_dec 0 (mx - mn)) as [|Hle]; [assumption|].
      exfalso. assert (H0 : mx - mn == 0) by lra.
      apply Qeq_bool_iff in H0. congruence. }
    assert (Ht0 : 0 <= (price - mn) / (mx - mn)).
    { apply Qle_shift_div_l; [exact Hspan|]. lra. }
    assert (Ht1 : (price - mn) / (mx - mn) <= 1).
    { apply Qle_shift_div_r; [exact Hspan|]. lra. }
    set (t := (price - mn) / (mx - mn)) in *.
    apply round_bounds; change (inject_Z 50) with 50; change (inject_Z 100) with 100; lra.
Qed.

Lemma rawDeliveryScore_range (p : Proposal) :
  delivery_in_range p -> (0 <= rawDeliveryScore p <= 100)%Z.
Proof.
  unfold delivery_in_range, rawDeliveryScore, delivery_of, or_num.
  destruct (truthy (pd_deliveryDays (parsedData p))) as [d|].
  - destruct (qlt d 999) eqn:E; [|lia].
    apply qlt_true in E. intros [Hd|Hd]; [|lra].
    assert (Hdiv : d / 60 * 50 == d * (5 # 6)) by field.
    apply round_bounds; change (inject_Z 0) with 0; change (inject_Z 100) with 100; lra.
  - intros _. vm_compute. split; discriminate.
Qed.

Lemma rawTermsScore_range (p : Proposal) : (60 <= rawTermsScore p <= 80)%Z.
Proof. unfold rawTermsScore. destruct (truthy_str _); lia. Qed.

(** *** The stable sort *)

Lemma insert_perm (x : VendorScore) (l : list VendorScore) : Permutation (insert x l) (x :: l).
Proof.
  induction l as [|y t IH]; cbn [insert].
  - apply Permutation_refl.
  - destruct (overallScore y <? overallScore x)%Z.
    + apply Permutation_refl.
    + eapply Permutation_trans; [apply perm_skip; exact IH | apply perm_swap].
Qed.

Lemma insert_sorted (x : VendorScore) (l : list VendorScore) :
  StronglySorted desc_rel l -> StronglySorted desc_rel (insert x l).
Proof.
  induction 1 as [|y t Ht IH Hall]; cbn [insert].
  - constructor; constructor.
  - destruct (overallScore y <? overallScore x)%Z eqn:E.
    + apply Z.ltb_lt in E. constructor.
      * constructor; assumption.
      * constructor; [unfold desc_rel; lia|].
        eapply Forall_impl; [|exact Hall]. unfold desc_rel; intros; lia.
    + apply Z.ltb_ge in E. constructor; [exact IH|].
      apply (Permutation_Forall (Permutation_sym (insert_perm x t))).
      constructor; [unfold desc_rel; lia | exact Hall].
Qed.

Lemma filter_none (f : VendorScore -> bool) (l : list VendorScore) :
  (forall z, In z l -> f z = false) -> filter f l = [].
Proof.
  induction l as [|y t IH]; intros H; cbn [filter]; [reflexivity|].
  rewrite (H y (or_introl eq_refl)). apply IH. intros z Hz. apply H. right; exact Hz.
Qed.

(** Inserting into a sorted list puts [x] after every element of its score. *)
Lemma insert_filter (k : Z) (x : VendorScore) (l : list VendorScore) :
  StronglySorted desc_rel l ->
  filter (same_score k) (insert x l) = filter (same_score k) l ++ filter (same_score k) [x].
Proof.
  induction 1 as [|y t Ht IH Hall]; cbn [insert].
  - reflexivity.
  - destruct (overallScore y <? overallScore x)%Z eqn:E.
    + apply Z.ltb_lt in E. cbn [filter].
      destruct (same_score k x) eqn:Ex.
      * unfold same_score in Ex. apply Z.eqb_eq in Ex.
        assert (Hn : filter (same_score k) (y :: t) = []).
        { apply filter_none. intros z [<-|Hz]; unfold same_score; apply Z.eqb_neq; [lia|].
          rewrite Forall_forall in Hall. specialize (Hall z Hz). unfold desc_rel in Hall. lia. }
        cbn [filter] in Hn. rewrite Hn. reflexivity.
      * rewrite app_nil_r. reflexivity.
    + cbn [filter]. destruct (same_score k y); rewrite IH; reflexivity.
Qed.

Lemma sort_aux_spec (acc l : list VendorScore) :
  StronglySorted desc_rel acc ->
  StronglySorted desc_rel (sort_aux acc l) /\ Permutation (sort_aux acc l) (acc ++ l) /\
  (forall k, filter (same_score k) (sort_aux acc l)
             = filter (same_score k) acc ++ filter (same_score k) l).
Proof.
  revert acc; induction l as [|x t IH]; intros acc Hs; cbn [sort_aux].
  - rewrite app_nil_r. split; [exact Hs|]. split; [apply Permutation_refl|].
    intros k. rewrite app_nil_r. reflexivity.
  - destruct (IH (insert x acc) (insert_sorted x acc Hs)) as (H1 & H2 & H3).
    split; [exact H1|]. split.
    + eapply Permutation_trans; [exact H2|].
      eapply Permutation_trans; [apply Permutation_app_tail, insert_perm|].
      apply Permutation_middle.
    + intros k. rewrite H3, (insert_filter k x acc Hs), <- app_assoc.
      f_equal. cbn [filter]. destruct (same_score k x); reflexivity.
Qed.

Lemma sort_scores_spec (l : list VendorScore) :
  StronglySorted desc_rel (sort_scores l) /\ Permutation (sort_scores l) l /\
  (forall k, filter (same_score k) (sort_scores l) = filter (same_score k) l).
Proof. exact (sort_aux_spec [] l (SSorted_nil _)). Qed.

Lemma returned_scores_perm (ps : list Proposal) :
  Permutation (returned_scores (fallbackCompareProposals ps)) (map (score ps) ps).
Proof.
  destruct (sort_scores_spec (map (score ps) ps)) as (_ & P & _).
  unfold fallbackCompareProposals, returned_scores.
  destruct (sort_scores (map (score ps) ps)) as [|best rest] eqn:E; [|exact P].
  exact P.
Qed.

Lemma returned_score_of (ps : list Proposal) (v : VendorScore) :
  In v (returned_scores (fallbackCompareProposals ps)) -> exists p, In p ps /\ v = score ps p.
Proof.
  intros Hv. apply (Permutation_in _ (returned_scores_perm ps)) in Hv.
  apply in_map_iff in Hv as (p & <- & Hp). exists p. split; [exact Hp | reflexivity].
Qed.


(** *** Claims *)

(** C7: for a non-empty proposal list the fallback comparison returns its
    scores sorted by [overallScore] descending, as a permutation of the
    per-proposal scores in which the scores of each value keep the input
    order (a stable sort); the first entry is the recommended vendor and the
    second, when present, is the alternative option, which is otherwise
    null. *)
Theorem fallbackCompare_sorted_stable (ps : list Proposal) :
  ps <> [] ->
  exists r best rest,
    fallbackCompareProposals ps = Some r /\
    vendorScores r = best :: rest /\
    StronglySorted (fun a b => (overallScore b <= overallScore a)%Z) (vendorScores r) /\
    Permutation (vendorScores r) (map (score ps) ps) /\
    (forall k, filter (fun v => Z.eqb (overallScore v) k) (vendorScores r)
               = filter (fun v => Z.eqb (overallScore v) k) (map (score ps) ps)) /\
    recommendedVendorId (recommendation r) = vs_vendorId best /\
    recommendedVendorName (recommendation r) = vs_vendorName best /\
    alternativeOption (recommendation r)
      = match rest with
        | second :: _ => Some (vs_vendorName second ++ " as second choice")%string
        | [] => None
        end.
Proof.
  intros Hne.
  destruct (sort_scores_spec (map (score ps) ps)) as (S & P & F).
  unfold fallbackCompareProposals.
  destruct (sort_scores (map (score ps) ps)) as [|best rest] eqn:E.
  - exfalso. apply Hne. apply Permutation_nil in P.
    destruct ps; [reflexivity | discriminate P].
  - eexists; exists best, rest. split; [reflexivity|]. cbn [vendorScores recommendation
      recommendedVendorId recommendedVendorName alternativeOption].
    split; [reflexivity|]. split; [exact S|]. split; [exact P|]. split; [exact F|].
    split; [reflexivity|]. split; reflexivity.
Qed.

Lemma fallbackCompare_sorted_stable_witness :
  exists r best rest, fallbackCompareProposals example_ps = Some r /\
    vendorScores r = best :: rest /\ StronglySorted (fun a b => (overallScore b <= overallScore a)%Z) (vendorScores r).
Proof.
  destruct (fallbackCompare_sorted_stable example_ps ltac:(discriminate))
    as (r & best & rest & H1 & H2 & H3 & _).
  exists r, best, rest. split; [exact H1|]. split; [exact H2 | exact H3].
Defined.

(** C6 counterexample: a delivery of 0 days is below 999, yet [0 || 999]
    turns it into the unknown sentinel and the score is 50, not 100. *)
Lemma deliveryScore_counterexample :
  deliveryScore (score [same_day_proposal] same_day_proposal) = 50%Z /\
  spec_deliveryScore same_day_proposal = 100%Z.
Proof. vm_compute. split; reflexivity. Qed.

(** C6 (amended): the delivery score of every proposal is
    [clamp (round (100 - (deliveryDays / 60) * 50))] when [deliveryDays] is
    a non-zero number below 999, and exactly 50 when it is missing, zero or
    at least 999. *)
Theorem deliveryScore_formula (ps : list Proposal) (p : Proposal) :
  deliveryScore (score ps p)
  = match pd_deliveryDays (parsedData p) with
    | Some d => if Qeq_bool d 0 then 50%Z
                else if qlt d 999 then clamp (js_round (100 - (d / 60) * 50)) else 50%Z
    | None => 50%Z
    end.
Proof.
  unfold score, rawDeliveryScore, delivery_of, or_num, truthy. cbn [deliveryScore].
  destruct (pd_deliveryDays (parsedData p)) as [d|].
  - destruct (Qeq_bool d 0); [reflexivity|].
    destruct (qlt d 999); reflexivity.
  - reflexivity.
Qed.

(** C5 counterexample: a single proposal with a negative total has a
    price, yet the code scores it 50 where the formula gives 100. *)
Lemma priceScore_counterexample :
  priceScore (score [negative_price_proposal] negative_price_proposal) = 50%Z /\
  spec_priceScore [negative_price_proposal] negative_price_proposal = 100%Z.
Proof. vm_compute. split; reflexivity. Qed.

(** C5 (amended): every returned score comes from a proposal whose
    [priceScore] is the formula with the specification's [minPrice] and
    [maxPrice] when its total is positive, and exactly 50 when the total is
    missing, zero or negative; and for two proposals with totals 5000 and
    8000 and no warranty, in either order, the cheaper one scores 100 on
    price, the costlier one 50, and both have [termsScore] 60. *)
Theorem priceScore_formula :
  (forall (ps : list Proposal) (v : VendorScore),
     In v (returned_scores (fallbackCompareProposals ps)) ->
     exists p, In p ps /\ v = score ps p /\
       priceScore v = if qlt 0 (price_or_zero p) then spec_priceScore ps p else 50%Z) /\
  (forall a b : Proposal,
     pd_totalPrice (parsedData a) = Some 5000 -> pd_totalPrice (parsedData b) = Some 8000 ->
     truthy_str (pd_warranty (parsedData a)) = false ->
     truthy_str (pd_warranty (parsedData b)) = false ->
     forall ps, ps = [a; b] \/ ps = [b; a] ->
     priceScore (score ps a) = 100%Z /\ priceScore (score ps b) = 50%Z /\
     (priceScore (score ps b) < priceScore (score ps a))%Z /\
     termsScore (score ps a) = 60%Z /\ termsScore (score ps b) = 60%Z).
Proof.
  split.
  - intros ps v Hv. destruct (returned_score_of ps v Hv) as (p & Hp & ->).
    exists p. split; [exact Hp|]. split; [reflexivity|].
    unfold score. cbn [priceScore].
    unfold rawPriceScore, spec_priceScore, price_or_zero, or_num.
    destruct (truthy (pd_totalPrice (parsedData p))) as [price|] eqn:Ht.
    + destruct (qlt 0 price) eqn:Elt; [|reflexivity].
      apply qlt_true in Elt as Hpos.
      destruct (price_bounds ps p price Hp Ht Hpos) as (Hmn & Hmx & _ & _).
      rewrite Hmn, Hmx, (proj1 (truthy_some _ _ Ht)). reflexivity.
    + reflexivity.
  - intros [va [ta da wa]] [vb [tb db wb]]. cbn [parsedData pd_totalPrice pd_warranty].
    intros -> -> Hwa Hwb ps [-> | ->];
      unfold score, rawTermsScore; cbn [parsedData pd_warranty priceScore termsScore];
      rewrite Hwa, Hwb; vm_compute; repeat split; reflexivity.
Qed.

Lemma priceScore_formula_witness :
  priceScore (score example_ps example_a) = 100%Z /\ priceScore (score example_ps example_b) = 50%Z.
Proof.
  destruct (proj2 priceScore_formula example_a example_b eq_refl eq_refl eq_refl eq_refl
              example_ps (or_introl eq_refl)) as (H1 & H2 & _).
  split; [exact H1 | exact H2].
Defined.

(** Every returned score has [priceScore], [deliveryScore], [termsScore]
    and [overallScore] in [0,100]; [overallScore] is the rounded and
    clamped mean of [priceScore], [termsScore] and the unclamped delivery
    formula, which is the mean of the three returned sub-scores whenever
    the delivery days are missing, zero, at least 999, or within [0,120]. *)
Theorem fallbackCompare_scores_bounded (ps : list Proposal) (v : VendorScore) :
  In v (returned_scores (fallbackCompareProposals ps)) ->
  exists p, In p ps /\ v = score ps p /\
    (0 <= priceScore v <= 100)%Z /\ (0 <= deliveryScore v <= 100)%Z /\
    (0 <= termsScore v <= 100)%Z /\ (0 <= overallScore v <= 100)%Z /\
    overallScore v
      = clamp (js_round (inject_Z (priceScore v + rawDeliveryScore p + termsScore v) / 3)) /\
    (delivery_in_range p ->
     overallScore v = clamp (js_round (inject_Z (priceScore v + deliveryScore v + termsScore v) / 3))).
Proof.
  intros Hv. destruct (returned_score_of ps v Hv) as (p & Hp & ->).
  exists p. split; [exact Hp|]. split; [reflexivity|].
  pose proof (rawPriceScore_range ps p Hp) as Hr.
  pose proof (rawTermsScore_range p) as Ht.
  unfold score. cbn [priceScore deliveryScore termsScore overallScore].
  rewrite (clamp_id (rawPriceScore ps p)) by lia.
  split; [lia|]. split; [apply clamp_range|]. split; [lia|]. split; [apply clamp_range|].
  split; [reflexivity|].
  intros Hd. rewrite (clamp_id (rawDeliveryScore p)) by exact (rawDeliveryScore_range p Hd).
  reflexivity.
Qed.

(** Claim C1 (code bug): the four scores of every returned entry lie in
    [0,100], but [overallScore] is not the mean of the returned
    sub-scores: it averages the delivery formula before clamping it. In any
    comparison that includes a proposal with no price, a 180-day delivery
    and no warranty, that proposal's entry has sub-scores 50, 0 and 60,
    whose rounded mean is 37, and [overallScore] 20. *)
Theorem overallScore_not_mean (ps : list Proposal) :
  (forall v, In v (returned_scores (fallbackCompareProposals ps)) ->
     (0 <= priceScore v <= 100)%Z /\ (0 <= deliveryScore v <= 100)%Z /\
     (0 <= termsScore v <= 100)%Z /\ (0 <= overallScore v <= 100)%Z) /\
  (In slow_proposal ps ->
   In (score ps slow_proposal) (returned_scores (fallbackCompareProposals ps)) /\
   (priceScore (score ps slow_proposal) = 50)%Z /\
   (deliveryScore (score ps slow_proposal) = 0)%Z /\
   (termsScore (score ps slow_proposal) = 60)%Z /\
   (overallScore (score ps slow_proposal) = 20)%Z /\
   (spec_overallScore (score ps slow_proposal) = 37)%Z).
Proof.
  split.
  - intros v Hv.
    destruct (fallbackCompare_scores_bounded ps v Hv) as (p & _ & _ & Hp & Hd & Ht & Ho & _).
    auto.
  - intros Hin. split.
    + apply (Permutation_in _ (Permutation_sym (returned_scores_perm ps))).
      apply in_map. exact Hin.
    + unfold score, rawPriceScore. cbn. vm_compute. repeat split; reflexivity.
Qed.

Lemma overallScore_not_mean_witness :
  (overallScore (score [slow_proposal; example_a] slow_proposal) = 20)%Z /\
  (spec_overallScore (score [slow_proposal; example_a] slow_proposal) = 37)%Z.
Proof.
  destruct (proj2 (overallScore_not_mean [slow_proposal; example_a]) ltac:(left; reflexivity))
    as (_ & _ & _ & _ & H1 & H2).
  split; [exact H1 | exact H2].
Defined.

End CompareFacts.

(** ** The fallback email template *)
Module EmailFacts.
Import Text Email Scenarios.
Local Open Scope string_scope.


















End EmailFacts.

(** ** The comparison controller *)
Module ControllerFacts.
Import Text Compare Service Controller Scenarios.
Local Open Scope string_scope.

(** One parsed proposal whose vendor exists: a success with the trivial
    recommendation, and no call to the engine. *)
Lemma compareProposals_single_vendor (engine : list Proposal -> envelope (json + Comparison))
  (db : DB) (rfpId : nat) (sp : StoredProposal) (v : Vendor) :
  existsb (Nat.eqb rfpId) (db_rfps db) = true ->
  filter (fun sp => Nat.eqb (sp_rfpId sp) rfpId && sp_isParsingComplete sp) (db_proposals db) = [sp] ->
  find (fun v => Nat.eqb (v_id v) (sp_vendorId sp)) (db_vendors db) = Some v ->
  compareProposals engine db rfpId
  = (0%nat, mkResponse 200 true
              (BSingle "Only one proposal available" (v_id v) (v_name v)
                 "Only one proposal received"
                 ["Single vendor option - no competitive comparison possible"]
                 [populate db sp])).
Proof.
  intros H1 H2 H3. unfold compareProposals. rewrite H1, H2. cbn [map].
  unfold populate at 1. cbn [vendorId]. rewrite H3. reflexivity.
Qed.

(** C9: with exactly one parsed proposal whose vendor was deleted, the
    controller makes no call to the engine but, reading [_id] of the
    [null] vendor, answers 500 with an error envelope instead of the
    trivial recommendation. *)
Theorem compareProposals_single_deleted_vendor
  (engine : list Proposal -> envelope (json + Comparison)) :
  compareProposals engine deleted_vendor_db 1
  = (0%nat, mkResponse 500 false
              (BError "Error comparing proposals" "Cannot read properties of null (reading '_id')")).
Proof. reflexivity. Qed.

End ControllerFacts.

(** ** More of the fallback comparison: how the scores order proposals *)
Module CompareMoreFacts.
Import Text Compare Scenarios CompareFacts.
Local Open Scope Q_scope.

Lemma js_round_le (x y : Q) : x <= y -> (js_round x <= js_round y)%Z.
Proof. intros H. unfold js_round. apply Qfloor_resp_le. lra. Qed.

Lemma js_round_comp (x y : Q) : x == y -> js_round x = js_round y.
Proof. intros H. unfold js_round. apply Qfloor_comp. rewrite H. reflexivity. Qed.

(** [Math.round(x)] is at most [b] when [x < b + 1/2]. *)
Lemma js_round_lt (x : Q) (b : Z) : x < inject_Z b + (1 # 2) -> (js_round x <= b)%Z.
Proof.
  intros H. unfold js_round.
  pose proof (Qfloor_le (x + (1 # 2))) as H1.
  destruct (Z_le_gt_dec (Qfloor (x + (1 # 2))) b) as [|Hgt]; [assumption|exfalso].
  assert (Hz : (b + 1 <= Qfloor (x + (1 # 2)))%Z) by lia.
  rewrite Zle_Qle, inject_Z_plus in Hz. change (inject_Z 1) with 1 in Hz. lra.
Qed.

Lemma clamp_mono (a b : Z) : (a <= b)%Z -> (clamp a <= clamp b)%Z.
Proof. unfold clamp; lia. Qed.

(** The price formula of a proposal with a positive price. *)
Lemma rawPriceScore_pos (ps : list Proposal) (p : Proposal) (a : Q) :
  In p ps -> truthy (pd_totalPrice (parsedData p)) = Some a -> 0 < a ->
  rawPriceScore ps p
  = js_round (100 - ((a - spec_minPrice ps)
                     / (if Qeq_bool (spec_maxPrice ps - spec_minPrice ps) 0 then 1
                        else spec_maxPrice ps - spec_minPrice ps)) * 50).
Proof.
  intros Hp Ht Ha.
  destruct (price_bounds ps p a Hp Ht Ha) as (Hmn & Hmx & _ & _).
  unfold rawPriceScore, price_or_zero, or_num. rewrite Ht.
  assert (E : qlt 0 a = true).
  { unfold qlt. destruct (Qle_bool a 0) eqn:E; [|reflexivity].
    apply Qle_bool_iff in E. lra. }
  rewrite E, Hmn, Hmx. reflexivity.
Qed.

Lemma fold_Qmax_in (xs : list Q) (x : Q) : exists y, In y (x :: xs) /\ fold_left Qmax xs x == y.
Proof.
  revert x; induction xs as [|a xs IH]; intros x; cbn [fold_left].
  - exists x. split; [left; reflexivity | apply Qeq_refl].
  - destruct (IH (Qmax x a)) as (y & [Hy|Hy] & E).
    + subst y. destruct (Q.max_dec x a) as [Hm|Hm].
      * exists x. split; [left; reflexivity | exact (Qeq_trans _ _ _ E Hm)].
      * exists a. split; [right; left; reflexivity | exact (Qeq_trans _ _ _ E Hm)].
    + exists y. split; [right; right; exact Hy | exact E].
Qed.

(** Among proposals with positive prices, a cheaper one never gets a lower
    price score than a costlier one. *)
Theorem priceScore_antitone (ps : list Proposal) (p q : Proposal) (a b : Q) :
  In p ps -> In q ps ->
  truthy (pd_totalPrice (parsedData p)) = Some a ->
  truthy (pd_totalPrice (parsedData q)) = Some b ->
  0 < a -> a <= b ->
  (priceScore (score ps q) <= priceScore (score ps p))%Z.
Proof.
  intros Hp Hq Ha Hb Hapos Hab.
  unfold score; cbn [priceScore]. apply clamp_mono.
  rewrite (rawPriceScore_pos ps p a Hp Ha Hapos).
  rewrite (rawPriceScore_pos ps q b Hq Hb ltac:(lra)).
  apply js_round_le.
  set (mn := spec_minPrice ps). set (mx := spec_maxPrice ps).
  assert (Hd : forall d, 0 < d -> (a - mn) / d <= (b - mn) / d).
  { intros d Hd. unfold Qdiv. apply Qmult_le_compat_r; [lra|].
    apply Qinv_le_0_compat. lra. }
  destruct (Qeq_bool (mx - mn) 0) eqn:Es.
  - pose proof (Hd 1 ltac:(lra)). lra.
  - assert (Hspan : 0 < mx - mn).
    { destruct (price_bounds ps p a Hp Ha Hapos) as (_ & _ & H1 & H2).
      destruct (Qlt_le_dec 0 (mx - mn)) as [|Hle]; [assumption|].
      exfalso. assert (H0 : mx - mn == 0) by (unfold mx, mn in *; lra).
      apply Qeq_bool_iff in H0. congruence. }
    pose proof (Hd _ Hspan). lra.
Qed.

Lemma priceScore_antitone_witness :
  (5000 <= 8000)%Q /\
  (priceScore (score example_ps example_b) <= priceScore (score example_ps example_a))%Z.
Proof.
  split; [vm_compute; discriminate|].
  apply (priceScore_antitone example_ps example_a example_b 5000 8000);
    [left; reflexivity | right; left; reflexivity | reflexivity | reflexivity
    | vm_compute; reflexivity | vm_compute; discriminate].
Defined.

(** A proposal whose positive price is the lowest price offered gets the
    full price score of 100. *)
Theorem priceScore_cheapest (ps : list Proposal) (p : Proposal) (a : Q) :
  In p ps -> truthy (pd_totalPrice (parsedData p)) = Some a -> 0 < a ->
  (forall b, In b (truthy_prices ps) -> a <= b) ->
  priceScore (score ps p) = 100%Z.
Proof.
  intros Hp Ha Hapos Hlow.
  unfold score; cbn [priceScore].
  rewrite (rawPriceScore_pos ps p a Hp Ha Hapos).
  destruct (price_bounds ps p a Hp Ha Hapos) as (_ & _ & Hmn & _).
  assert (Emn : spec_minPrice ps == a).
  { unfold spec_minPrice in *. destruct (truthy_prices ps) as [|x xs] eqn:Etp.
    - exfalso. assert (Hin : In a (truthy_prices ps)).
      { unfold truthy_prices. apply in_flat_map. exists p. split; [exact Hp|].
        rewrite Ha. left; reflexivity. }
      rewrite Etp in Hin. destruct Hin.
    - destruct (fold_Qmin_in xs x) as (y & Hy & Ey).
      pose proof (Hlow y Hy). lra. }
  set (d := if Qeq_bool (spec_maxPrice ps - spec_minPrice ps) 0 then 1
            else spec_maxPrice ps - spec_minPrice ps).
  rewrite (js_round_comp _ 100); [reflexivity|].
  assert (Hz : (a - spec_minPrice ps) / d == 0).
  { assert (H0 : a - spec_minPrice ps == 0) by lra. rewrite H0.
    unfold Qdiv. apply Qmult_0_l. }
  rewrite Hz. ring.
Qed.

Lemma priceScore_cheapest_witness :
  priceScore (score example_ps example_a) = 100%Z.
Proof.
  apply (priceScore_cheapest example_ps example_a 5000);
    [left; reflexivity | reflexivity | vm_compute; reflexivity |].
  intros b Hb. vm_compute in Hb.
  destruct Hb as [<-|[<-|[]]]; vm_compute; discriminate.
Defined.

(** When prices differ, the proposal with the highest price (that price
    being positive) gets a price score of exactly 50. *)
Theorem priceScore_costliest (ps : list Proposal) (p : Proposal) (a : Q) :
  In p ps -> truthy (pd_totalPrice (parsedData p)) = Some a -> 0 < a ->
  (forall b, In b (map price_or_zero ps) -> b <= a) ->
  (exists b, In b (truthy_prices ps) /\ b < a) ->
  priceScore (score ps p) = 50%Z.
Proof.
  intros Hp Ha Hapos Hhigh (b & Hb & Hba).
  unfold score; cbn [priceScore].
  rewrite (rawPriceScore_pos ps p a Hp Ha Hapos).
  destruct (price_bounds ps p a Hp Ha Hapos) as (_ & _ & Hmn & Hmx).
  assert (Emx : spec_maxPrice ps == a).
  { unfold spec_maxPrice in *. destruct (map price_or_zero ps) as [|x xs] eqn:Emp.
    - exfalso. destruct ps; [destruct Hp|discriminate].
    - destruct (fold_Qmax_in xs x) as (y & Hy & Ey).
      pose proof (Hhigh y Hy). lra. }
  assert (Hmnb : spec_minPrice ps <= b).
  { unfold spec_minPrice. destruct (truthy_prices ps) as [|x xs]; [destruct Hb|].
    apply fold_Qmin_le. exact Hb. }
  assert (Hspan : 0 < spec_maxPrice ps - spec_minPrice ps) by lra.
  destruct (Qeq_bool (spec_maxPrice ps - spec_minPrice ps) 0) eqn:Es.
  { apply Qeq_bool_iff in Es. lra. }
  rewrite (js_round_comp _ 50); [reflexivity|].
  assert (H1 : (a - spec_minPrice ps) / (spec_maxPrice ps - spec_minPrice ps) == 1).
  { rewrite Emx. field. lra. }
  rewrite H1. ring.
Qed.

Lemma priceScore_costliest_witness :
  priceScore (score example_ps example_b) = 50%Z.
Proof.
  apply (priceScore_costliest example_ps example_b 8000);
    [right; left; reflexivity | reflexivity | vm_compute; reflexivity | |].
  - intros b Hb. vm_compute in Hb.
    destruct Hb as [<-|[<-|[]]]; vm_compute; discriminate.
  - exists 5000. split; [vm_compute; left; reflexivity | vm_compute; reflexivity].
Defined.

(** Below 999 days, a longer stated delivery never gets a higher delivery
    score. *)
Theorem deliveryScore_antitone (ps : list Proposal) (p q : Proposal) (d1 d2 : Q) :
  truthy (pd_deliveryDays (parsedData p)) = Some d1 ->
  truthy (pd_deliveryDays (parsedData q)) = Some d2 ->
  d1 <= d2 -> d2 < 999 ->
  (deliveryScore (score ps q) <= deliveryScore (score ps p))%Z.
Proof.
  intros H1 H2 Hle Hlt.
  unfold score; cbn [deliveryScore]. apply clamp_mono.
  unfold rawDeliveryScore, delivery_of, or_num. rewrite H1, H2.
  assert (E : forall d, d < 999 -> qlt d 999 = true).
  { intros d Hd. unfold qlt. destruct (Qle_bool 999 d) eqn:E; [|reflexivity].
    apply Qle_bool_iff in E. lra. }
  rewrite (E d1 ltac:(lra)), (E d2 Hlt).
  apply js_round_le.
  assert (Hd : d1 / 60 <= d2 / 60).
  { unfold Qdiv. apply Qmult_le_compat_r; [exact Hle|]. vm_compute; discriminate. }
  lra.
Qed.

Lemma deliveryScore_antitone_witness :
  (deliveryScore (score example_ps example_b) <= deliveryScore (score example_ps example_a))%Z.
Proof.
  apply (deliveryScore_antitone example_ps example_a example_b 10 30);
    [reflexivity | reflexivity | vm_compute; discriminate | vm_compute; reflexivity].
Defined.

(** A proposal that states a delivery of 61 to 998 days scores lower on
    delivery than one that states no delivery at all (which counts as 999
    days and scores 50). *)
Theorem deliveryScore_slow_below_missing (ps : list Proposal) (p q : Proposal) (d : Q) :
  truthy (pd_deliveryDays (parsedData p)) = Some d -> 61 <= d -> d < 999 ->
  truthy (pd_deliveryDays (parsedData q)) = None ->
  deliveryScore (score ps q) = 50%Z /\
  (deliveryScore (score ps p) < deliveryScore (score ps q))%Z.
Proof.
  intros H1 Hge Hlt H2.
  unfold score; cbn [deliveryScore].
  unfold rawDeliveryScore, delivery_of, or_num. rewrite H1, H2.
  assert (E : qlt d 999 = true).
  { unfold qlt. destruct (Qle_bool 999 d) eqn:E; [|reflexivity].
    apply Qle_bool_iff in E. lra. }
  rewrite E.
  assert (E999 : qlt 999 999 = false) by reflexivity. rewrite E999.
  split; [reflexivity|].
  assert (Hr : (js_round (100 - d / 60 * 50) <= 49)%Z).
  { apply js_round_lt. change (inject_Z 49) with 49.
    assert (Hdiv : d / 60 * 50 == d * (5 # 6)) by field. lra. }
  rewrite (clamp_id 50) by lia. unfold clamp. lia.
Qed.

Lemma deliveryScore_slow_below_missing_witness :
  let none := mkProposal None (mkParsedData None None None) in
  deliveryScore (score [slow_proposal; none] none) = 50%Z /\
  (deliveryScore (score [slow_proposal; none] slow_proposal)
   < deliveryScore (score [slow_proposal; none] none))%Z.
Proof.
  intros none.
  exact (deliveryScore_slow_below_missing _ slow_proposal none 180
           eq_refl ltac:(vm_compute; discriminate) ltac:(vm_compute; reflexivity) eq_refl).
Defined.

End CompareMoreFacts.

(** ** The comparison service and the compare route *)
Module CompareRouteFacts.
Import Text Compare Service ServiceMore Controller CompareRoute Scenarios CompareFacts.
Local Open Scope string_scope.

Lemma fallback_envelope_no_fail (ps : list Proposal) (e : string) :
  fallback_envelope ps <> Returned (EnvFail e).
Proof. unfold fallback_envelope. destruct (fallbackCompareProposals ps); discriminate. Qed.

(** [aiService.compareProposals] never answers [{success: false}]: it
    returns data, from the service or from the fallback, or it throws. *)
Theorem service_compare_never_fails (svc : service) (ps : list Proposal) (e : string) :
  snd (ServiceMore.compareProposals svc ps) <> Returned (EnvFail e).
Proof.
  destruct svc as [|r]; cbn [ServiceMore.compareProposals snd].
  - apply fallback_envelope_no_fail.
  - destruct (existsb _ ps); cbn [snd]; [discriminate|].
    destruct r as [m|[j|m]]; try apply fallback_envelope_no_fail. discriminate.
Qed.

(** The route never answers ["Failed to compare proposals"]: that branch
    needs a failure envelope, which the service never returns. *)
Theorem compareRoute_never_failed_to_compare (svc : service) (db : DB) (rfpId : nat) (e : string) :
  rbody (snd (compareRoute svc db rfpId)) <> BError "Failed to compare proposals" e.
Proof.
  unfold compareRoute.
  destruct (existsb (Nat.eqb rfpId) (db_rfps db)); [|discriminate].
  destruct (map (populate db) _) as [|p [|p2 rest]] eqn:Eps; cbn [snd rbody];
    [discriminate | destruct (vendorId p); discriminate |].
  destruct (ServiceMore.compareProposals svc (p :: p2 :: rest)) as [n out] eqn:Ec.
  pose proof (service_compare_never_fails svc (p :: p2 :: rest) e) as Hnf.
  rewrite Ec in Hnf. cbn [snd] in Hnf |- *.
  destruct out as [[d u|e']|[m]]; cbn [rbody]; try discriminate.
  intros H. injection H as ->. apply Hnf. reflexivity.
Qed.

(** With two or more parsed proposals, one of them from a deleted vendor:
    when the generative service is configured, the route answers 500 before
    any network call (reading [_id] of the [null] vendor); when it is not,
    the fallback comparison answers 200 and lists that proposal under
    ["Unknown Vendor"] with no vendor id. *)
Theorem compareRoute_deleted_vendor (r : reply) (db : DB) (rfpId : nat)
  (sp1 sp2 : StoredProposal) (rest : list StoredProposal) (sp : StoredProposal) :
  existsb (Nat.eqb rfpId) (db_rfps db) = true ->
  filter (fun sp => Nat.eqb (sp_rfpId sp) rfpId && sp_isParsingComplete sp) (db_proposals db)
  = sp1 :: sp2 :: rest ->
  In sp (sp1 :: sp2 :: rest) -> vendorId (populate db sp) = None ->
  compareRoute (Configured r) db rfpId
  = (0%nat, mkResponse 500 false
              (BError "Error comparing proposals" "Cannot read properties of null (reading '_id')"))
  /\ exists c,
       compareRoute Unconfigured db rfpId = (0%nat, mkResponse 200 true (BData (inr c)))
       /\ exists v, In v (vendorScores c) /\ vs_vendorId v = None
                    /\ vs_vendorName v = "Unknown Vendor".
Proof.
  intros Hr Hf Hsp Hnull.
  unfold compareRoute. rewrite Hr, Hf.
  set (ps := map (populate db) (sp1 :: sp2 :: rest)).
  assert (Hin : In (populate db sp) ps) by (apply in_map; exact Hsp).
  cbn [map] in ps. subst ps.
  set (ps := populate db sp1 :: populate db sp2 :: map (populate db) rest) in *.
  split.
  - cbn [ServiceMore.compareProposals].
    replace (existsb _ ps) with true; [reflexivity|].
    symmetry. apply existsb_exists. exists (populate db sp). rewrite Hnull. split; [exact Hin | reflexivity].
  - assert (Hperm := returned_scores_perm ps).
    cbn [ServiceMore.compareProposals]. unfold fallback_envelope.
    destruct (fallbackCompareProposals ps) as [c|] eqn:Ec.
    + exists c. split; [reflexivity|].
      exists (score ps (populate db sp)). split.
      * apply (Permutation_in _ (Permutation_sym Hperm)). apply in_map. exact Hin.
      * unfold score, vendorName_of. cbn [vs_vendorId vs_vendorName]. rewrite Hnull.
        split; reflexivity.
    + exfalso. cbn [returned_scores] in Hperm.
      apply Permutation_length in Hperm. discriminate.
Qed.

Lemma compareRoute_deleted_vendor_witness :
  let db := mkDB [1%nat]
              [mkStored 1 7 true (mkParsedData (Some 5000) (Some 10) None);
               mkStored 1 2 true (mkParsedData (Some 8000) (Some 30) None)]
              [mkVendor 2 "Globex"] in
  compareRoute (Configured (ReplyThrows "timeout")) db 1
  = (0%nat, mkResponse 500 false
              (BError "Error comparing proposals" "Cannot read properties of null (reading '_id')"))
  /\ exists c,
       compareRoute Unconfigured db 1 = (0%nat, mkResponse 200 true (BData (inr c)))
       /\ exists v, In v (vendorScores c) /\ vs_vendorId v = None
                    /\ vs_vendorName v = "Unknown Vendor".
Proof.
  intros db.
  exact (compareRoute_deleted_vendor (ReplyThrows "timeout") db 1
           (mkStored 1 7 true (mkParsedData (Some 5000) (Some 10) None))
           (mkStored 1 2 true (mkParsedData (Some 8000) (Some 30) None)) []
           (mkStored 1 7 true (mkParsedData (Some 5000) (Some 10) None))
           eq_refl eq_refl (or_introl eq_refl) eq_refl).
Defined.

End CompareRouteFacts.

(** ** Number formatting, the HTML part of a mail and the email service *)
Module EmailMoreFacts.
Import Text Email Service ServiceMore Mail Scenarios EmailFacts MoreTerms.
Local Open Scope string_scope.

Lemma filter_group3 (i : nat) (l : list ascii) :
  filter not_comma (group3 i l) = filter not_comma l.
Proof.
  revert i; induction l as [|x t IH]; intros i; [reflexivity|].
  cbn [group3].
  destruct i as [|[|[|[|i]]]]; cbn [filter]; rewrite ?IH; reflexivity.
Qed.

Lemma filter_rev_list {A} (f : A -> bool) (l : list A) :
  filter f (rev l) = rev (filter f l).
Proof.
  induction l as [|x t IH]; [reflexivity|].
  cbn [rev filter]. rewrite filter_app, IH. cbn [filter].
  destruct (f x); [reflexivity | apply app_nil_r].
Qed.

Lemma uint_no_comma (d : Decimal.uint) :
  filter not_comma (list_ascii_of_string (NilEmpty.string_of_uint d))
  = list_ascii_of_string (NilEmpty.string_of_uint d).
Proof. induction d; cbn; rewrite ?IHd; reflexivity. Qed.

(** Removing the group separators from [toLocaleString()] gives back the
    plain decimal text [`${z}`], sign included. *)
Theorem toLocaleString_ungroup (z : Z) :
  filter not_comma (s2l (toLocaleString z)) = z_to_text z.
Proof.
  unfold toLocaleString, l2s, s2l.
  rewrite list_ascii_of_string_of_list_ascii, filter_app, filter_rev_list,
    filter_group3, filter_rev_list, rev_involutive.
  unfold z_to_text, s2l.
  destruct z as [|p|p]; cbn [Z.abs Z.ltb Z.compare].
  - reflexivity.
  - cbn [filter app]. apply uint_no_comma.
  - cbn [Z.to_int NilEmpty.string_of_int list_ascii_of_string filter app].
    rewrite uint_no_comma. reflexivity.
Qed.

Lemma l2s_app (a b : list ascii) : l2s (a ++ b) = l2s a ++ l2s b.
Proof. induction a as [|c a IH]; cbn; [reflexivity | f_equal; exact IH]. Qed.

Lemma lines_aux_nonempty (cur l : list ascii) : lines_aux cur l <> [].
Proof.
  revert cur; induction l as [|c t IH]; intros cur; cbn [lines_aux]; [discriminate|].
  destruct (Ascii.eqb c "010"%char); [discriminate | apply IH].
Qed.

Lemma html_lines_aux (cur l : list ascii) :
  l2s (rev cur ++ flat_map br l) = join "<br>" (lines_aux cur l).
Proof.
  revert cur; induction l as [|c t IH]; intros cur.
  - cbn [flat_map lines_aux join]. rewrite app_nil_r. reflexivity.
  - cbn [flat_map lines_aux]. unfold br at 1.
    destruct (Ascii.eqb c "010"%char).
    + specialize (IH []). cbn [rev app] in IH.
      pose proof (lines_aux_nonempty [] t) as Hne.
      destruct (lines_aux [] t) as [|y ys] eqn:E; [congruence|].
      change (join "<br>" (l2s (rev cur) :: y :: ys))
        with (l2s (rev cur) ++ "<br>" ++ join "<br>" (y :: ys)).
      rewrite <- IH, !l2s_app. reflexivity.
    + rewrite <- IH. cbn [rev]. rewrite <- app_assoc. reflexivity.
Qed.

(** The [html] part [sendEmail] builds is the text body with its lines
    joined by [<br>]: each line break, and nothing else, becomes [<br>]. *)
Theorem sendEmail_html_lines (body : string) :
  html_of body = join "<br>" (lines body).
Proof.
  unfold html_of, lines. exact (html_lines_aux [] (s2l body)).
Qed.

(** [generateRFPEmail] never answers [{success: false}], and it throws only
    when the service is configured and the RFP has no [items] array, before
    any network call. *)
Theorem generateRFPEmail_outcomes (svc : service) (rfp : RFP) (vendorName : string) :
  (forall e, snd (generateRFPEmail svc rfp vendorName) <> Returned (EnvFail e)) /\
  (forall e, snd (generateRFPEmail svc rfp vendorName) = Threw e ->
             fst (generateRFPEmail svc rfp vendorName) = 0%nat /\
             svc <> Unconfigured /\ r_items rfp = None) /\
  (svc = Unconfigured ->
   generateRFPEmail svc rfp vendorName
   = (0%nat, Returned (EnvData (inr (fallbackGenerateEmail rfp vendorName)) true))).
Proof.
  destruct svc as [|r]; cbn [generateRFPEmail].
  - split; [intros e; discriminate|]. split; [intros e H; discriminate H|].
    intros _; reflexivity.
  - destruct (r_items rfp) as [l|] eqn:Ei.
    + split; [|split; [|intros H; discriminate H]].
      * intros e. destruct r as [m|[j|m]]; discriminate.
      * intros e. destruct r as [m|[j|m]]; discriminate.
    + split; [intros e; discriminate|]. split; [|intros H; discriminate H].
      intros e _. split; [reflexivity|]. split; [discriminate | reflexivity].
Qed.

End EmailMoreFacts.

(** ** The RFP and proposal controllers *)
Module RouteFacts.
Import Text Extract ProposalExtract Email Service ServiceMore Mail Routes MoreTerms ExtractFacts.
Local Open Scope string_scope.

(** *** The store *)

Lemma mark_received_proposals (st : Store) (r : StoredRFP) :
  st_proposals (mark_received st r) = st_proposals st.
Proof. unfold mark_received. destruct (String.eqb _ _); reflexivity. Qed.

Lemma has_proposal_in (st : Store) (r v : nat) :
  has_proposal st r v = true <-> In (r, v) (map pair_of (st_proposals st)).
Proof.
  unfold has_proposal. rewrite existsb_exists, in_map_iff. split.
  - intros (p & Hp & E). apply andb_true_iff in E as [E1 E2].
    apply Nat.eqb_eq in E1, E2. exists p. unfold pair_of. rewrite E1, E2. auto.
  - intros (p & Ep & Hp). exists p. unfold pair_of in Ep. injection Ep as <- <-.
    rewrite !Nat.eqb_refl. auto.
Qed.

Lemma has_proposal_mark_received (st : Store) (r : StoredRFP) (a b : nat) :
  has_proposal (mark_received st r) a b = has_proposal st a b.
Proof. unfold has_proposal. rewrite mark_received_proposals. reflexivity. Qed.

Lemma unique_pairs_snoc (ps : list PRow) (p : PRow) :
  unique_pairs ps -> ~ In (pair_of p) (map pair_of ps) -> unique_pairs (ps ++ [p]).
Proof.
  unfold unique_pairs. intros H Hn. rewrite map_app. cbn [map].
  apply (Permutation_NoDup (Permutation_cons_append _ _)). constructor; assumption.
Qed.

Lemma unique_pairs_snoc_dup (ps : list PRow) (p : PRow) :
  In (pair_of p) (map pair_of ps) -> ~ unique_pairs (ps ++ [p]).
Proof.
  unfold unique_pairs. intros Hin H. rewrite map_app in H. cbn [map] in H.
  apply (Permutation_NoDup (Permutation_sym (Permutation_cons_append _ _))) in H.
  inversion H as [|? ? Hn _]. contradiction.
Qed.

(** *** [createProposal] and [simulateProposal] *)

(** [createProposal] keeps at most one proposal per (RFP, vendor) pair: it
    refuses a second one with 400. *)
Theorem createProposal_keeps_pairs_unique (st : Store) (rfpId vendorId : option nat)
  (emailBody : string) :
  unique_pairs (st_proposals st) ->
  unique_pairs (st_proposals (fst (createProposal st rfpId vendorId emailBody))).
Proof.
  intros H. unfold createProposal.
  destruct rfpId as [r|], vendorId as [v|]; try exact H.
  destruct (find_rfp st r) as [rfp|]; [|exact H].
  destruct (find_vendor st v) as [vd|]; [|exact H].
  destruct (has_proposal st r v) eqn:Eh; [exact H|].
  cbn [fst]. rewrite mark_received_proposals. cbn [add_proposal st_proposals].
  apply unique_pairs_snoc; [exact H|]. cbn [pair_of pr_rfpId pr_vendorId].
  intros Hin. apply has_proposal_in in Hin. cbn [pr_rfpId pr_vendorId] in Hin. congruence.
Qed.

Lemma createProposal_keeps_pairs_unique_witness :
  unique_pairs (st_proposals (fst (createProposal example_store (Some 1%nat) (Some 2%nat) "Quote"))).
Proof. apply createProposal_keeps_pairs_unique. constructor. Defined.

Lemma simulate_row (json_castable : json -> bool) (svc : service) (st : Store) (r v : nat)
  (text : jsval) (rfp : StoredRFP) (vd : VendorDoc) :
  find_rfp st r = Some rfp -> find_vendor st v = Some vd -> js_truthy text = true ->
  exists row, st_proposals (fst (simulateProposal json_castable svc st (Some r) (Some v) text))
              = (st_proposals st ++ [row])%list /\ pair_of row = (r, v).
Proof.
  intros Hr Hv Ht. unfold simulateProposal. rewrite Ht, Hr, Hv.
  destruct (snd (parseVendorProposal svc text)) as [[d u|e]|e].
  - destruct (castable json_castable d); cbn [fst];
      rewrite ?mark_received_proposals; eexists; split; reflexivity.
  - cbn [fst]. rewrite mark_received_proposals. eexists; split; reflexivity.
  - eexists; split; reflexivity.
Qed.

(** [simulateProposal] has no check for an existing proposal: once the RFP
    and the vendor exist, a non-empty string text is always stored as a new
    proposal for the pair, whatever the parse then does (even when it
    throws and the route answers 500), so a pair that already had a
    proposal now has two. *)
Theorem simulateProposal_duplicates (json_castable : json -> bool) (svc : service) (st : Store)
  (r v : nat) (text : string) (rfp : StoredRFP) (vd : VendorDoc) :
  find_rfp st r = Some rfp -> find_vendor st v = Some vd -> text <> "" ->
  (exists row, st_proposals (fst (simulateProposal json_castable svc st (Some r) (Some v)
                                    (JSString text)))
               = (st_proposals st ++ [row])%list /\ pair_of row = (r, v)) /\
  (has_proposal st r v = true ->
   ~ unique_pairs (st_proposals (fst (simulateProposal json_castable svc st (Some r) (Some v)
                                        (JSString text))))).
Proof.
  intros Hr Hv Hne.
  assert (Ht : js_truthy (JSString text) = true).
  { cbn. destruct (String.eqb_spec text ""); [contradiction | reflexivity]. }
  destruct (simulate_row json_castable svc st r v (JSString text) rfp vd Hr Hv Ht)
    as (row & E & Ep).
  split; [exists row; auto|].
  intros Hh. rewrite E. apply unique_pairs_snoc_dup. rewrite Ep. apply has_proposal_in. exact Hh.
Qed.

Lemma simulateProposal_duplicates_witness :
  let st := fst (createProposal example_store (Some 1%nat) (Some 2%nat) "Quote") in
  ~ unique_pairs (st_proposals (fst (simulateProposal (fun _ => true) Unconfigured st
                                       (Some 1%nat) (Some 2%nat) (JSString "Total: $4000")))).
Proof.
  intros st.
  apply (proj2 (simulateProposal_duplicates (fun _ => true) Unconfigured st 1 2 "Total: $4000"
                  (mkStoredRFP 1 "responses_received" Scenarios.example_rfp [2; 3]%nat)
                  (mkVendorDoc 2 "Acme" "sales@acme.com")
                  eq_refl eq_refl ltac:(discriminate))).
  reflexivity.
Defined.

(** *** [parseProposal] *)

(** [parseProposal] never answers ["Failed to parse proposal"]: the stored
    body is a string, so [parseVendorProposal] returns data (from the
    service or the fallback) and never a failure envelope. *)
Theorem parseProposal_never_failed_to_parse (json_castable : json -> bool) (svc : service)
  (st : Store) (id : nat) :
  Routes.message (snd (parseProposal json_castable svc st id)) <> "Failed to parse proposal".
Proof.
  unfold parseProposal.
  destruct (find _ (st_proposals st)) as [p|]; [|discriminate].
  destruct (String.eqb (pr_emailBody p) ""); [discriminate|].
  destruct svc as [|[m|[j|m]]];
    cbn [parseVendorProposal fallbackParseProposal_js snd];
    match goal with
    | |- context [castable json_castable ?d] => destruct (castable json_castable d)
    end; discriminate.
Qed.

(** With the service unconfigured, a stored proposal with a non-empty body
    whose fallback total is a number is parsed: it gets the fallback
    extraction of its body, [isParsingComplete] and status ["parsed"]. *)
Theorem parseProposal_fallback (json_castable : json -> bool) (st : Store) (id : nat) (p : PRow) :
  find (fun q => Nat.eqb (pr_id q) id) (st_proposals st) = Some p ->
  pr_emailBody p <> "" ->
  totalPrice (fallbackParseProposal (pr_emailBody p)) <> QNaN ->
  parseProposal json_castable Unconfigured st id
  = (update_proposal st id (fun q => mkPRow (pr_id q) (pr_rfpId q) (pr_vendorId q) (pr_emailBody q)
                                         "parsed" true (Some (inr (fallbackParseProposal (pr_emailBody p))))),
     mkAnswer 200 "Proposal parsed successfully").
Proof.
  intros Hf Hb Hn. unfold parseProposal. rewrite Hf.
  destruct (String.eqb (pr_emailBody p) "") eqn:E; [apply String.eqb_eq in E; contradiction|].
  cbn [parseVendorProposal fallbackParseProposal_js snd castable].
  destruct (totalPrice (fallbackParseProposal (pr_emailBody p))); [| contradiction |]; reflexivity.
Qed.

Lemma parseProposal_fallback_witness :
  let st := mkStore [] [] [mkPRow 5 1 2 "Total: $5000, delivery in 10 days" "received" false None] in
  parseProposal (fun _ => true) Unconfigured st 5
  = (update_proposal st 5 (fun q => mkPRow (pr_id q) (pr_rfpId q) (pr_vendorId q) (pr_emailBody q)
                                       "parsed" true
                                       (Some (inr (fallbackParseProposal "Total: $5000, delivery in 10 days")))),
     mkAnswer 200 "Proposal parsed successfully").
Proof.
  intros st.
  apply (parseProposal_fallback (fun _ => true) st 5
           (mkPRow 5 1 2 "Total: $5000, delivery in 10 days" "received" false None)
           eq_refl ltac:(discriminate) ltac:(vm_compute; discriminate)).
Defined.

(** *** [checkEmails] *)

Lemma check_step_unique (rfp : StoredRFP) (sel : list VendorDoc) (acc : Store * list PRow)
  (e : InEmail) :
  unique_pairs (st_proposals (fst acc)) ->
  unique_pairs (st_proposals (fst (check_step rfp sel acc e))).
Proof.
  destruct acc as [st created]. unfold check_step. intros H.
  destruct (find _ sel) as [v|]; [|exact H].
  destruct (has_proposal st (rf_id rfp) (vd_id v)) eqn:Eh; [exact H|].
  cbn [fst add_proposal st_proposals]. apply unique_pairs_snoc; [exact H|].
  cbn [pair_of pr_rfpId pr_vendorId]. intros Hin. apply has_proposal_in in Hin. cbn [fst pr_rfpId pr_vendorId] in Hin. congruence.
Qed.

Lemma fold_check_unique (rfp : StoredRFP) (sel : list VendorDoc) (l : list InEmail)
  (acc : Store * list PRow) :
  unique_pairs (st_proposals (fst acc)) ->
  unique_pairs (st_proposals (fst (fold_left (check_step rfp sel) l acc))).
Proof.
  revert acc; induction l as [|e t IH]; intros acc H; [exact H|].
  cbn [fold_left]. apply IH. apply check_step_unique. exact H.
Qed.

Lemma check_step_mono (rfp : StoredRFP) (sel : list VendorDoc) (acc : Store * list PRow)
  (e : InEmail) (a b : nat) :
  has_proposal (fst acc) a b = true -> has_proposal (fst (check_step rfp sel acc e)) a b = true.
Proof.
  destruct acc as [st created]. unfold check_step. intros H.
  destruct (find _ sel) as [v|]; [|exact H].
  destruct (has_proposal st (rf_id rfp) (vd_id v)); [exact H|].
  unfold has_proposal in *. cbn [fst add_proposal st_proposals] in *.
  rewrite existsb_app, H. reflexivity.
Qed.

Lemma fold_check_mono (rfp : StoredRFP) (sel : list VendorDoc) (l : list InEmail)
  (acc : Store * list PRow) (a b : nat) :
  has_proposal (fst acc) a b = true ->
  has_proposal (fst (fold_left (check_step rfp sel) l acc)) a b = true.
Proof.
  revert acc; induction l as [|e t IH]; intros acc H; [exact H|].
  cbn [fold_left]. apply IH. apply check_step_mono. exact H.
Qed.

Lemma check_step_adds (rfp : StoredRFP) (sel : list VendorDoc) (acc : Store * list PRow)
  (e : InEmail) (v : VendorDoc) :
  find (fun v => String.eqb (lower_s (vd_email v)) (lower_s (ie_fromAddress e))) sel = Some v ->
  has_proposal (fst (check_step rfp sel acc e)) (rf_id rfp) (vd_id v) = true.
Proof.
  destruct acc as [st created]. unfold check_step. intros Hf. rewrite Hf.
  destruct (has_proposal st (rf_id rfp) (vd_id v)) eqn:Eh; [exact Eh|].
  unfold has_proposal. cbn [fst add_proposal st_proposals].
  rewrite existsb_app. cbn [existsb pr_rfpId pr_vendorId]. rewrite !Nat.eqb_refl.
  apply orb_true_r.
Qed.

Lemma fold_check_covers (rfp : StoredRFP) (sel : list VendorDoc) (l : list InEmail)
  (acc : Store * list PRow) (e : InEmail) (v : VendorDoc) :
  In e l ->
  find (fun v => String.eqb (lower_s (vd_email v)) (lower_s (ie_fromAddress e))) sel = Some v ->
  has_proposal (fst (fold_left (check_step rfp sel) l acc)) (rf_id rfp) (vd_id v) = true.
Proof.
  revert acc; induction l as [|x t IH]; intros acc Hin Hf; [destruct Hin|].
  cbn [fold_left]. destruct Hin as [<-|Hin].
  - apply fold_check_mono. apply check_step_adds. exact Hf.
  - apply IH; assumption.
Qed.

(** [checkEmails] keeps at most one proposal per (RFP, vendor) pair. *)
Theorem checkEmails_keeps_pairs_unique (fetched : string + list InEmail) (st : Store) (rfpId : nat) :
  unique_pairs (st_proposals st) ->
  unique_pairs (st_proposals (fst (fst (checkEmails fetched st rfpId)))).
Proof.
  intros H. unfold checkEmails.
  destruct (find_rfp st rfpId) as [rfp|]; [|exact H].
  destruct (checkForVendorResponses _ _) as [responses|err]; [|exact H].
  pose proof (fold_check_unique rfp (populate_selected st rfp) responses (st, []) H) as Hu.
  destruct (fold_left _ responses (st, [])) as [st1 created].
  cbn [fst] in Hu |- *. destruct created; [exact Hu|].
  rewrite mark_received_proposals. exact Hu.
Qed.

Lemma checkEmails_keeps_pairs_unique_witness :
  unique_pairs (st_proposals (fst (fst (checkEmails (inr [acme_reply; acme_reply]) example_store 1)))).
Proof. apply checkEmails_keeps_pairs_unique. constructor. Defined.

(** After a successful [checkEmails], every fetched email whose sender
    matches (ignoring ASCII case) the address of a selected, still existing
    vendor has led to a proposal for that vendor (the first selected vendor
    with that address) and this RFP. *)
Theorem checkEmails_covers_responders (emails : list InEmail) (st : Store) (rfpId : nat)
  (rfp : StoredRFP) (e : InEmail) (v : VendorDoc) :
  find_rfp st rfpId = Some rfp -> In e emails ->
  find (fun v => String.eqb (lower_s (vd_email v)) (lower_s (ie_fromAddress e)))
       (populate_selected st rfp) = Some v ->
  has_proposal (fst (fst (checkEmails (inr emails) st rfpId))) rfpId (vd_id v) = true.
Proof.
  intros Hr He Hf.
  assert (Hid : rf_id rfp = rfpId).
  { unfold find_rfp in Hr. apply find_some in Hr as [_ E]. apply Nat.eqb_eq. exact E. }
  unfold checkEmails. rewrite Hr. cbn [checkForVendorResponses].
  set (sel := populate_selected st rfp) in *.
  assert (Hin : In e (filter (fun e => existsb (fun ve => String.eqb (lower_s ve)
                                                      (lower_s (ie_fromAddress e)))
                                              (map vd_email sel)) emails)).
  { apply filter_In. split; [exact He|].
    apply find_some in Hf as [Hv Ev]. apply existsb_exists.
    exists (vd_email v). split; [apply in_map; exact Hv | exact Ev]. }
  pose proof (fold_check_covers rfp sel _ (st, []) e v Hin Hf) as Hc.
  destruct (fold_left _ _ (st, [])) as [st1 created].
  cbn [fst] in Hc |- *. rewrite <- Hid.
  destruct created; [exact Hc|]. rewrite has_proposal_mark_received. exact Hc.
Qed.

Lemma checkEmails_covers_responders_witness :
  has_proposal (fst (fst (checkEmails (inr [acme_reply]) example_store 1))) 1 2 = true.
Proof.
  apply (checkEmails_covers_responders [acme_reply] example_store 1
           (mkStoredRFP 1 "sent" Scenarios.example_rfp [2; 3]%nat) acme_reply
           (mkVendorDoc 2 "Acme" "sales@acme.com")).
  - reflexivity.
  - left; reflexivity.
  - vm_compute. reflexivity.
Defined.

Lemma populate_selected_in (st : Store) (r : StoredRFP) (v : VendorDoc) :
  In v (populate_selected st r) ->
  In (vd_id v) (rf_selected r) /\ find_vendor st (vd_id v) = Some v.
Proof.
  unfold populate_selected. intros Hv. apply in_flat_map in Hv as (id & Hid & Hv).
  destruct (find_vendor st id) as [w|] eqn:Ef; [|destruct Hv].
  destruct Hv as [<-|[]].
  assert (E : vd_id w = id).
  { unfold find_vendor in Ef. apply find_some in Ef as [_ E]. apply Nat.eqb_eq. exact E. }
  rewrite E. split; assumption.
Qed.

Lemma check_step_created (rfp : StoredRFP) (sel : list VendorDoc) (base : list PRow)
  (acc : Store * list PRow) (e : InEmail) :
  st_proposals (fst acc) = (base ++ snd acc)%list ->
  Forall (fun p => pr_rfpId p = rf_id rfp /\ (exists v, In v sel /\ pr_vendorId p = vd_id v) /\
                   pr_status p = "received" /\ pr_isParsingComplete p = false) (snd acc) ->
  st_proposals (fst (check_step rfp sel acc e)) = (base ++ snd (check_step rfp sel acc e))%list /\
  Forall (fun p => pr_rfpId p = rf_id rfp /\ (exists v, In v sel /\ pr_vendorId p = vd_id v) /\
                   pr_status p = "received" /\ pr_isParsingComplete p = false)
         (snd (check_step rfp sel acc e)).
Proof.
  destruct acc as [st created]. unfold check_step. cbn [fst snd]. intros H1 H2.
  destruct (find _ sel) as [v|] eqn:Ef; [|split; assumption].
  destruct (has_proposal st (rf_id rfp) (vd_id v)); [split; assumption|].
  cbn [fst snd add_proposal st_proposals]. rewrite H1, app_assoc. split; [reflexivity|].
  apply Forall_app. split; [exact H2|]. constructor; [|constructor].
  cbn. split; [reflexivity|]. split; [|split; reflexivity].
  exists v. split; [apply find_some in Ef as [Hv _]; exact Hv | reflexivity].
Qed.

Lemma fold_check_created (rfp : StoredRFP) (sel : list VendorDoc) (base : list PRow)
  (l : list InEmail) (acc : Store * list PRow) :
  st_proposals (fst acc) = (base ++ snd acc)%list ->
  Forall (fun p => pr_rfpId p = rf_id rfp /\ (exists v, In v sel /\ pr_vendorId p = vd_id v) /\
                   pr_status p = "received" /\ pr_isParsingComplete p = false) (snd acc) ->
  st_proposals (fst (fold_left (check_step rfp sel) l acc))
  = (base ++ snd (fold_left (check_step rfp sel) l acc))%list /\
  Forall (fun p => pr_rfpId p = rf_id rfp /\ (exists v, In v sel /\ pr_vendorId p = vd_id v) /\
                   pr_status p = "received" /\ pr_isParsingComplete p = false)
         (snd (fold_left (check_step rfp sel) l acc)).
Proof.
  revert acc; induction l as [|e t IH]; intros acc H1 H2; [split; assumption|].
  cbn [fold_left]. destruct (check_step_created rfp sel base acc e H1 H2) as [K1 K2].
  exact (IH _ K1 K2).
Qed.

(** [checkEmails] only appends proposals, and only the ones it reports as
    created: each is for this RFP and for a vendor that is selected for it
    and still exists, with status ["received"] and not yet parsed. *)
Theorem checkEmails_created (fetched : string + list InEmail) (st : Store) (rfpId : nat)
  (rfp : StoredRFP) :
  find_rfp st rfpId = Some rfp ->
  st_proposals (fst (fst (checkEmails fetched st rfpId)))
  = (st_proposals st ++ snd (checkEmails fetched st rfpId))%list /\
  Forall (fun p => pr_rfpId p = rfpId /\ In (pr_vendorId p) (rf_selected rfp) /\
                   find_vendor st (pr_vendorId p) <> None /\
                   pr_status p = "received" /\ pr_isParsingComplete p = false)
         (snd (checkEmails fetched st rfpId)).
Proof.
  intros Hr.
  assert (Hid : rf_id rfp = rfpId).
  { unfold find_rfp in Hr. apply find_some in Hr as [_ E]. apply Nat.eqb_eq. exact E. }
  unfold checkEmails. rewrite Hr.
  destruct (checkForVendorResponses _ _) as [responses|err];
    [|cbn [fst snd]; rewrite app_nil_r; split; [reflexivity | constructor]].
  destruct (fold_check_created rfp (populate_selected st rfp) (st_proposals st) responses (st, [])
              ltac:(cbn; rewrite app_nil_r; reflexivity) (Forall_nil _)) as [K1 K2].
  destruct (fold_left _ responses (st, [])) as [st1 created].
  cbn [fst snd] in K1, K2 |- *. split.
  - destruct created; [exact K1|]. rewrite mark_received_proposals. exact K1.
  - eapply Forall_impl; [|exact K2]. cbn beta.
    intros p (E1 & (v & Hv & Ev) & E3 & E4).
    destruct (populate_selected_in st rfp v Hv) as [Hs Hf].
    rewrite Ev. repeat split; try assumption; [congruence | rewrite Hf; discriminate].
Qed.

Lemma checkEmails_created_witness :
  st_proposals (fst (fst (checkEmails (inr [acme_reply]) example_store 1)))
  = (st_proposals example_store ++ snd (checkEmails (inr [acme_reply]) example_store 1))%list /\
  Forall (fun p => pr_rfpId p = 1%nat /\ In (pr_vendorId p) [2; 3]%nat /\
                   find_vendor example_store (pr_vendorId p) <> None /\
                   pr_status p = "received" /\ pr_isParsingComplete p = false)
         (snd (checkEmails (inr [acme_reply]) example_store 1)).
Proof.
  exact (checkEmails_created (inr [acme_reply]) example_store 1
           (mkStoredRFP 1 "sent" Scenarios.example_rfp [2; 3]%nat) eq_refl).
Defined.

(** *** [selectVendors] *)

Lemma map_id_filter (ids : list nat) (l : list VendorDoc) :
  map vd_id (filter (fun v => existsb (Nat.eqb (vd_id v)) ids) l)
  = filter (fun id => existsb (Nat.eqb id) ids) (map vd_id l).
Proof.
  induction l as [|v t IH]; [reflexivity|]. cbn [filter map].
  destruct (existsb (Nat.eqb (vd_id v)) ids); cbn [map]; rewrite IH; reflexivity.
Qed.

Lemma existsb_eqb_in (id : nat) (ids : list nat) : existsb (Nat.eqb id) ids = true <-> In id ids.
Proof.
  rewrite existsb_exists. split.
  - intros (x & Hx & E). apply Nat.eqb_eq in E. subst. exact Hx.
  - intros H. exists id. split; [exact H | apply Nat.eqb_refl].
Qed.

(** When vendor ids are unique in the store, [selectVendors] on an existing
    RFP accepts a list of ids exactly when every id names a vendor and no
    id is repeated: [Vendor.find] returns each vendor once, so a repeated
    valid id is refused as "One or more vendor IDs are invalid". *)
Theorem selectVendors_accepts (st : Store) (rfpId : nat) (ids : list nat) (rfp : StoredRFP) :
  NoDup (map vd_id (st_vendors st)) -> find_rfp st rfpId = Some rfp ->
  (code (snd (selectVendors st rfpId (Some ids))) = 200%nat <->
   NoDup ids /\ incl ids (map vd_id (st_vendors st))).
Proof.
  intros Hnd Hr. unfold selectVendors. rewrite Hr.
  set (F := filter (fun v => existsb (Nat.eqb (vd_id v)) ids) (st_vendors st)).
  assert (HF : map vd_id F = filter (fun id => existsb (Nat.eqb id) ids) (map vd_id (st_vendors st)))
    by apply map_id_filter.
  assert (HndF : NoDup (map vd_id F)) by (rewrite HF; apply NoDup_filter; exact Hnd).
  assert (HinF : forall id, In id (map vd_id F) <-> In id (map vd_id (st_vendors st)) /\ In id ids).
  { intros id. rewrite HF, filter_In, existsb_eqb_in. reflexivity. }
  assert (HlenF : length F = length (map vd_id F)) by (symmetry; apply length_map).
  assert (Hsub : incl (map vd_id F) ids) by (intros id Hid; apply HinF; exact Hid).
  destruct (Nat.eqb (length F) (length ids)) eqn:El; cbn [negb snd code].
  - apply Nat.eqb_eq in El. split; [intros _|intros _; reflexivity].
    assert (Hback : incl ids (map vd_id F)).
    { apply NoDup_length_incl; [exact HndF | lia | exact Hsub]. }
    split.
    + eapply NoDup_incl_NoDup; [exact HndF | lia | exact Hsub].
    + intros id Hid. apply HinF. apply Hback. exact Hid.
  - split; [discriminate|]. intros [Hids Hincl]. exfalso.
    apply Nat.eqb_neq in El. apply El.
    assert (Hback : incl ids (map vd_id F)).
    { intros id Hid. apply HinF. split; [apply Hincl; exact Hid | exact Hid]. }
    pose proof (NoDup_incl_length Hids Hback).
    pose proof (NoDup_incl_length HndF Hsub). lia.
Qed.

Lemma selectVendors_accepts_witness :
  code (snd (selectVendors example_store 1 (Some [2; 2]%nat))) <> 200%nat.
Proof.
  intros H.
  apply (selectVendors_accepts example_store 1 [2; 2]%nat
           (mkStoredRFP 1 "sent" Scenarios.example_rfp [2; 3]%nat)) in H as [Hnd _].
  - inversion Hnd as [|? ? Hn _]. apply Hn. left; reflexivity.
  - repeat constructor; cbn; intuition discriminate.
  - reflexivity.
Defined.

(** *** [sendRFPToVendors] *)

Lemma generateRFPEmail_data (svc : service) (doc : RFP) (name : string) :
  r_items doc <> None ->
  exists d u, snd (generateRFPEmail svc doc name) = Returned (EnvData d u).
Proof.
  intros Hi. destruct svc as [|r]; cbn [generateRFPEmail snd].
  - do 2 eexists; reflexivity.
  - destruct (r_items doc); [|contradiction].
    destruct r as [m|[j|m]]; cbn [snd]; do 2 eexists; reflexivity.
Qed.

Lemma send_all_rows (sendEmail : string -> json + EmailContent -> bool * option string)
  (svc : service) (doc : RFP) (vs : list VendorDoc) :
  r_items doc <> None ->
  exists rows, send_all sendEmail svc doc vs = Returned rows /\
    Forall2 (fun v row => sr_vendorId row = vd_id v /\ sr_vendorName row = vd_name v /\
                          sr_email row = vd_email v /\
                          exists d, sendEmail (vd_email v) d = (sr_sent row, sr_error row))
            vs rows.
Proof.
  intros Hi. induction vs as [|v t IH].
  - exists []. split; [reflexivity | constructor].
  - destruct IH as (rows & E & Hrows).
    destruct (generateRFPEmail_data svc doc (vd_name v) Hi) as (d & u & Ed).
    cbn [send_all]. rewrite Ed, E.
    destruct (sendEmail (vd_email v) d) as [ok err] eqn:Es.
    eexists. split; [reflexivity|]. constructor; [|exact Hrows].
    cbn. repeat split. exists d. exact Es.
Qed.

(** Sending an RFP that has selected, still existing vendors answers 200
    with one result per vendor, in order, each carrying what the mailer
    returned for that vendor (never the "Failed to generate email content"
    branch, as [generateRFPEmail] always has data), and marks the RFP
    ["sent"] whatever the mailer returned, even when every send failed. *)
Theorem sendRFPToVendors_results (sendEmail : string -> json + EmailContent -> bool * option string)
  (svc : service) (st : Store) (rfpId : nat) (rfp : StoredRFP) :
  find_rfp st rfpId = Some rfp -> populate_selected st rfp <> [] -> r_items (rf_doc rfp) <> None ->
  exists rows,
    sendRFPToVendors sendEmail svc st rfpId
    = (set_rfp st rfpId (with_status "sent"), mkAnswer 200 "RFP sent to vendors", rows) /\
    Forall2 (fun v row => sr_vendorId row = vd_id v /\ sr_vendorName row = vd_name v /\
                          sr_email row = vd_email v /\
                          exists d, sendEmail (vd_email v) d = (sr_sent row, sr_error row))
            (populate_selected st rfp) rows.
Proof.
  intros Hr Hne Hi.
  destruct (send_all_rows sendEmail svc (rf_doc rfp) (populate_selected st rfp) Hi)
    as (rows & E & Hrows).
  exists rows. split; [|exact Hrows].
  unfold sendRFPToVendors. rewrite Hr.
  destruct (populate_selected st rfp) as [|v vs]; [contradiction|].
  rewrite E. reflexivity.
Qed.

Lemma sendRFPToVendors_results_witness :
  exists rows,
    sendRFPToVendors (fun _ _ => (false, Some "SMTP unavailable")) Unconfigured example_store 1
    = (set_rfp example_store 1 (with_status "sent"), mkAnswer 200 "RFP sent to vendors", rows) /\
    Forall2 (fun v row => sr_vendorId row = vd_id v /\ sr_vendorName row = vd_name v /\
                          sr_email row = vd_email v /\
                          exists d : json + EmailContent,
                            (false, Some "SMTP unavailable") = (sr_sent row, sr_error row))
            (populate_selected example_store (mkStoredRFP 1 "sent" Scenarios.example_rfp [2; 3]%nat))
            rows.
Proof.
  apply (sendRFPToVendors_results (fun _ _ => (false, Some "SMTP unavailable")) Unconfigured
           example_store 1 (mkStoredRFP 1 "sent" Scenarios.example_rfp [2; 3]%nat)).
  - reflexivity.
  - discriminate.
  - discriminate.
Defined.

(** *** [createRFP] *)

(** A non-empty string input, with the service unconfigured or its call
    failing, gives the draft built from the regex fallback (at least one
    item, [originalInput] the input, a deadline exactly when [deliveryDays]
    is non-zero): 201 when the document validates, 500 otherwise. *)
Theorem createRFP_string_fallback (validates : NewRFP -> bool) (svc : service) (s : string) :
  s <> "" -> (svc = Unconfigured \/ exists r, svc = Configured r /\ Service.message r <> None) ->
  createRFP validates svc (JSString s)
  = (let doc := mkNewRFP (inr (fallbackParseRFP s)) s "draft"
                         (match deliveryDays (fallbackParseRFP s) with
                          | Some z => negb (z =? 0)%Z
                          | None => false
                          end) in
     if validates doc then (mkAnswer 201 "RFP created successfully", Some doc)
     else (mkAnswer 500 "Error creating RFP", None)) /\
  (1 <= length (items (fallbackParseRFP s)))%nat.
Proof.
  intros Hs Hsvc. split; [|apply fallbackParseRFP_items].
  unfold createRFP. cbn [js_truthy].
  destruct (String.eqb s "") eqn:E; [apply String.eqb_eq in E; contradiction|].
  cbn [negb].
  destruct Hsvc as [->|(r & -> & Hm)]; cbn [parseRFPFromNaturalLanguage fallbackParseRFP_js snd].
  - reflexivity.
  - destruct r as [m|[j|m]]; [reflexivity | cbn in Hm; contradiction | reflexivity].
Qed.

Lemma createRFP_string_fallback_witness :
  createRFP (fun _ => true) Unconfigured (JSString Extract.scenario)
  = (mkAnswer 201 "RFP created successfully",
     Some (mkNewRFP (inr (fallbackParseRFP Extract.scenario)) Extract.scenario "draft" true)).
Proof.
  rewrite (proj1 (createRFP_string_fallback (fun _ => true) Unconfigured Extract.scenario
                    ltac:(discriminate) (or_introl eq_refl))).
  vm_compute. reflexivity.
Defined.

(** A truthy input that is not a string never creates an RFP: with the
    service unconfigured the fallback's [toLowerCase] throws and the route
    answers 500 "Error creating RFP"; with a failing service call the
    guarded fallback gives a failure envelope and the route answers 500
    "Failed to parse RFP". *)
Theorem createRFP_nonstring (validates : NewRFP -> bool) (v : jsval) :
  js_truthy v = true -> (forall s, v <> JSString s) ->
  createRFP validates Unconfigured v = (mkAnswer 500 "Error creating RFP", None) /\
  (forall r, Service.message r <> None ->
   createRFP validates (Configured r) v = (mkAnswer 500 "Failed to parse RFP", None)).
Proof.
  intros Ht Hns. unfold createRFP. rewrite Ht. cbn [negb].
  assert (Ef : exists e, fallbackParseRFP_js v = Threw e).
  { destruct v as [s|z|b| |]; [exfalso; exact (Hns s eq_refl)| | | |]; eexists; reflexivity. }
  destruct Ef as (e & Ef).
  split.
  - cbn [parseRFPFromNaturalLanguage snd]. rewrite Ef. reflexivity.
  - intros r Hm. cbn [parseRFPFromNaturalLanguage snd].
    destruct r as [m|[j|m]]; [| cbn in Hm; contradiction |]; rewrite Ef; reflexivity.
Qed.

Lemma createRFP_nonstring_witness :
  createRFP (fun _ => true) Unconfigured (JSNumber 42) = (mkAnswer 500 "Error creating RFP", None) /\
  createRFP (fun _ => true) (Configured (ReplyThrows "timeout")) (JSNumber 42)
  = (mkAnswer 500 "Failed to parse RFP", None).
Proof.
  destruct (createRFP_nonstring (fun _ => true) (JSNumber 42) eq_refl ltac:(discriminate))
    as [H1 H2].
  split; [exact H1 | apply H2; discriminate].
Defined.

End RouteFacts.

(** ** More of the regex RFP extractor *)
Module ExtractMoreFacts.
Import Text Regex Extract.
Local Open Scope string_scope.

Lemma set_spec_at_names (i : nat) (sp : string) (l : list Item) :
  map name (set_spec_at i sp l) = map name l /\
  map quantity (set_spec_at i sp l) = map quantity l.
Proof.
  revert i; induction l as [|it t IH]; intros i; [destruct i; split; reflexivity|].
  destruct i as [|j]; cbn [set_spec_at map set_spec name quantity]; [split; reflexivity|].
  destruct (IH j) as [H1 H2]. rewrite H1, H2. split; reflexivity.
Qed.

Lemma apply_ram_names (u : list ascii) (l : list Item) :
  map name (apply_ram u l) = map name l /\ map quantity (apply_ram u l) = map quantity l.
Proof.
  unfold apply_ram. destruct (search ram_re u), l; split; reflexivity.
Qed.

Lemma apply_screen_names (u : list ascii) (l : list Item) :
  map name (apply_screen u l) = map name l /\ map quantity (apply_screen u l) = map quantity l.
Proof.
  unfold apply_screen. destruct (search screen_re u); [|split; reflexivity].
  destruct (find_monitor l); [apply set_spec_at_names | split; reflexivity].
Qed.

(** When the category patterns find items, the RAM and screen steps only
    fill in specifications: the returned items have the names and
    quantities of the matches, in order, and the title joins those names
    with " and " followed by " Procurement". *)
Theorem fallbackParseRFP_title_items (s : string) :
  extract_items (s2l s) <> [] ->
  map name (items (fallbackParseRFP s)) = map name (extract_items (s2l s)) /\
  map quantity (items (fallbackParseRFP s)) = map quantity (extract_items (s2l s)) /\
  title (fallbackParseRFP s) = join " and " (map name (extract_items (s2l s))) ++ " Procurement".
Proof.
  intros Hne. unfold fallbackParseRFP. cbn [items title].
  set (l := extract_items (s2l s)) in *.
  destruct (apply_ram_names (s2l s) l) as [R1 R2].
  destruct (apply_screen_names (s2l s) (apply_ram (s2l s) l)) as [S1 S2].
  destruct (apply_screen (s2l s) (apply_ram (s2l s) l)) as [|x xs] eqn:E.
  - exfalso. cbn [map] in S1. rewrite R1 in S1. destruct l; [congruence | discriminate].
  - rewrite S1, S2, R1, R2. repeat split.
Qed.

Lemma fallbackParseRFP_title_items_witness :
  title (fallbackParseRFP scenario) = "Laptop and Monitor Procurement".
Proof.
  destruct (fallbackParseRFP_title_items scenario ltac:(vm_compute; discriminate)) as (_ & _ & ->).
  vm_compute. reflexivity.
Defined.

End ExtractMoreFacts.
